(** * Bible MCP server: a shallow embedding of [server.py]

    The server exposes four tools that issue one HTTP GET each against
    [https://bible-api.com] and format the parsed JSON reply, two constant
    resources and two prompt templates.

    Python values are modelled as follows.
    - [str] is a list of Unicode code points ([pystr]); the literals of the
      source are ASCII and written [lit "..."].
    - a parsed JSON document is a [json] tree; objects keep their entries in
      document order.  The numbers of the upstream schema ([verse],
      [chapter]) are integers, and so are the numbers of the model.
    - a call either returns a value or raises ([outcome]).
    - the network and the random generator are the [world] a tool runs in;
      a tool returns the URLs it requested together with its outcome. *)

From Stdlib Require Import String Ascii List ZArith NArith Arith Bool Lia.
From Stdlib Require Import DecimalString.
Import ListNotations.

Set Implicit Arguments.
Set Warnings "-register-all".

(** ** Strings *)

Definition pystr := list N.

Definition lit (s : string) : pystr :=
  map N_of_ascii (list_ascii_of_string s).

(** The line feed, written [\n] in the source. *)
Definition LF : N := 10%N.
Definition nl : pystr := [LF].

Fixpoint pystr_eqb (a b : pystr) : bool :=
  match a, b with
  | [], [] => true
  | x :: a', y :: b' => N.eqb x y && pystr_eqb a' b'
  | _, _ => false
  end.

(** [str.isspace] for one code point: the characters CPython lists in
    [_PyUnicode_IsWhitespace]. *)
Definition is_space (c : N) : bool :=
  ((9 <=? c) && (c <=? 13) || (28 <=? c) && (c <=? 32)
   || (c =? 133) || (c =? 160) || (c =? 5760)
   || (8192 <=? c) && (c <=? 8202)
   || (c =? 8232) || (c =? 8233) || (c =? 8239) || (c =? 8287)
   || (c =? 12288))%N.

Fixpoint drop_while (p : N -> bool) (s : pystr) : pystr :=
  match s with
  | [] => []
  | c :: s' => if p c then drop_while p s' else s
  end.

Definition lstrip (s : pystr) : pystr := drop_while is_space s.
Definition rstrip (s : pystr) : pystr := rev (drop_while is_space (rev s)).

(** [str.strip()] without argument. *)
Definition strip (s : pystr) : pystr := rstrip (lstrip s).

Fixpoint starts_with (p s : pystr) : bool :=
  match p, s with
  | [], _ => true
  | x :: p', y :: s' => N.eqb x y && starts_with p' s'
  | _ :: _, [] => false
  end.

(** [p in s] on two strings. *)
Fixpoint is_substring (p s : pystr) : bool :=
  starts_with p s ||
  match s with
  | [] => false
  | _ :: s' => is_substring p s'
  end.

(** [sep.join(parts)]. *)
Fixpoint join (sep : pystr) (parts : list pystr) : pystr :=
  match parts with
  | [] => []
  | [p] => p
  | p :: rest => p ++ sep ++ join sep rest
  end.

(** [str(n)] for an [int]. *)
Definition dec (z : Z) : pystr := lit (NilZero.string_of_int (Z.to_int z)).

(** The format specification [2d]: decimal, right-aligned in two columns. *)
Definition fmt_2d (z : Z) : pystr :=
  let s := dec z in repeat 32%N (2 - length s) ++ s.

(** The lines of a string, split at every line feed ([s.split('\n')]). *)
Fixpoint split_lines_aux (cur : pystr) (s : pystr) : list pystr :=
  match s with
  | [] => [rev cur]
  | c :: s' =>
      if N.eqb c LF then rev cur :: split_lines_aux [] s'
      else split_lines_aux (c :: cur) s'
  end.

Definition split_lines (s : pystr) : list pystr := split_lines_aux [] s.

(** ** Parsed JSON *)

Inductive json : Type :=
| JNull
| JBool (b : bool)
| JInt (z : Z)
| JStr (s : pystr)
| JList (l : list json)
| JDict (d : list (pystr * json)).

(** [d.get(key)] on a parsed object, whose keys are distinct. *)
Fixpoint lookup (key : pystr) (d : list (pystr * json)) : option json :=
  match d with
  | [] => None
  | (k, v) :: d' => if pystr_eqb k key then Some v else lookup key d'
  end.

(** ** Outcomes of a call *)

Inductive exn : Type :=
| TypeError | KeyError | AttributeError | IndexError
| JSONDecodeError | RequestException.

Inductive outcome (A : Type) : Type :=
| Returns (a : A)
| Raises (e : exn).

Arguments Returns {A} a.
Arguments Raises {A} e.

Definition obind {A B} (m : outcome A) (k : A -> outcome B) : outcome B :=
  match m with
  | Returns a => k a
  | Raises e => Raises e
  end.

Declare Scope outcome_scope.
Delimit Scope outcome_scope with outcome.
Notation "x <- m ;; k" := (obind m (fun x => k))
  (at level 61, m at next level, right associativity) : outcome_scope.

Open Scope outcome_scope.

(** ** Python operations on parsed JSON *)

(** Truth value of a parsed document, as [not data] tests it. *)
Definition truthy (j : json) : bool :=
  match j with
  | JNull => false
  | JBool b => b
  | JInt z => negb (Z.eqb z 0)
  | JStr s => negb (Nat.eqb (length s) 0)
  | JList l => negb (Nat.eqb (length l) 0)
  | JDict d => negb (Nat.eqb (length d) 0)
  end.

(** [len(data)]. *)
Definition py_len (j : json) : outcome nat :=
  match j with
  | JStr s => Returns (length s)
  | JList l => Returns (length l)
  | JDict d => Returns (length d)
  | _ => Raises TypeError
  end.

(** [key in data] for a string [key]: key membership on an object, element
    membership on an array, substring test on a string. *)
Definition py_in (key : pystr) (data : json) : outcome bool :=
  match data with
  | JDict d => Returns (existsb (fun kv => pystr_eqb (fst kv) key) d)
  | JList l =>
      Returns (existsb (fun x => match x with
                                 | JStr s => pystr_eqb s key
                                 | _ => false
                                 end) l)
  | JStr s => Returns (is_substring key s)
  | _ => Raises TypeError
  end.

(** [data[key]] for a string [key]. *)
Definition py_getitem (data : json) (key : pystr) : outcome json :=
  match data with
  | JDict d =>
      match lookup key d with
      | Some v => Returns v
      | None => Raises KeyError
      end
  | _ => Raises TypeError
  end.

(** [value.strip()]: only [str] has the method. *)
Definition py_strip (value : json) : outcome pystr :=
  match value with
  | JStr s => Returns (strip s)
  | _ => Raises AttributeError
  end.

(** [seq[:stop]] on a list or on the characters of a string; a negative
    [stop] counts from the end. *)
Definition slice_to {A} (l : list A) (stop : Z) : list A :=
  if (stop <? 0)%Z
  then firstn (length l - Z.to_nat (- stop)) l
  else firstn (Z.to_nat stop) l.

(** [data[:stop]].  An object cannot be sliced (a [TypeError] up to
    Python 3.11, a [KeyError] from 3.12 on). *)
Definition py_slice_to (data : json) (stop : Z) : outcome json :=
  match data with
  | JList l => Returns (JList (slice_to l stop))
  | JStr s => Returns (JStr (slice_to s stop))
  | _ => Raises TypeError
  end.

(** The items a [for] loop over [data] visits: the elements of an array,
    the characters of a string, the keys of an object. *)
Definition py_iter (data : json) : outcome (list json) :=
  match data with
  | JList l => Returns l
  | JStr s => Returns (map (fun c => JStr [c]) s)
  | JDict d => Returns (map (fun kv => JStr (fst kv)) d)
  | _ => Raises TypeError
  end.

(** [for x in items: body], threading the variables the body assigns. *)
Fixpoint py_for {S} (items : list json) (body : json -> S -> outcome S)
    (s : S) : outcome S :=
  match items with
  | [] => Returns s
  | x :: rest => s' <- body x s ;; py_for rest body s'
  end.

(** [a or b] on an optional string argument: [None] and [''] are falsy. *)
Definition or_str (a : option pystr) (b : pystr) : pystr :=
  match a with
  | Some ((_ :: _) as s) => s
  | _ => b
  end.

(** [a or b] on an optional integer argument: [None] and [0] are falsy. *)
Definition or_int (a : option Z) (b : Z) : Z :=
  match a with
  | Some z => if Z.eqb z 0 then b else z
  | None => b
  end.

(** ** The world a tool runs in *)

(** What [requests.get] hands back: the status code and the body, [None]
    when the body is not JSON. *)
Record response : Type := mkResponse {
  status_code : Z;
  body : option json
}.

(** [response.json()]. *)
Definition response_json (r : response) : outcome json :=
  match body r with
  | Some j => Returns j
  | None => Raises JSONDecodeError
  end.

(** The upstream service answers (or the client raises) per URL; [draw] is
    what the random generator yields on its next use. *)
Record world : Type := mkWorld {
  network : pystr -> outcome response;
  draw : nat
}.

(** A tool body: it reads the world and yields the URLs it requested, in
    order, with its outcome. *)
Definition io (A : Type) : Type := world -> list pystr * outcome A.

Definition io_bind {A B} (m : io A) (k : A -> io B) : io B :=
  fun w =>
    match m w with
    | (urls, Returns a) => let (urls', o) := k a w in (urls ++ urls', o)
    | (urls, Raises e) => (urls, Raises e)
    end.

Definition lift {A} (o : outcome A) : io A := fun _ => ([], o).

(** Effects of the world are bound with [<~], fallible pure steps with
    [<-]. *)
Notation "x <~ m ;; k" := (io_bind m (fun x => k))
  (at level 61, m at next level, right associativity).

(** [requests.get(url)]. *)
Definition requests_get (url : pystr) : io response :=
  fun w => ([url], network w url).

(** [random.choice(seq)]: the element at an index below [len(seq)] taken
    from the generator; an empty sequence raises [IndexError]. *)
Definition random_choice {A} (seq : list A) : io A :=
  fun w =>
    ([], match nth_error seq (draw w mod length seq) with
         | Some x => Returns x
         | None => Raises IndexError
         end).

(** The URLs a run requested and the value it produced. *)
Definition requested {A} (r : list pystr * outcome A) : list pystr := fst r.
Definition result {A} (r : list pystr * outcome A) : outcome A := snd r.

(** [repr] of a [str]: quoting and escaping, which follow the Unicode
    character database of the interpreter.  It is reached only when an
    upstream field holds an array or an object. *)
Class StrRepr : Type := repr_str : pystr -> pystr.

Section Server.

Context {interpreter : StrRepr}.

(** [repr(value)] of a parsed document. *)
Fixpoint py_repr (j : json) : pystr :=
  match j with
  | JNull => lit "None"
  | JBool true => lit "True"
  | JBool false => lit "False"
  | JInt z => dec z
  | JStr s => repr_str s
  | JList l => lit "[" ++ join (lit ", ") (map py_repr l) ++ lit "]"
  | JDict d =>
      lit "{"
      ++ join (lit ", ")
           (map (fun kv : pystr * json => let (k, v) := kv in
                           repr_str k ++ lit ": " ++ py_repr v) d)
      ++ lit "}"
  end.

(** [{value}] in an f-string, that is [str(value)]. *)
Definition py_str (j : json) : pystr :=
  match j with
  | JStr s => s
  | _ => py_repr j
  end.

(** *** Tools *)

Definition get_verse (reference : pystr) (translation : option pystr)
  : io pystr :=
  (let translation := or_str translation (lit "kjv") in
   let url := lit "https://bible-api.com/" ++ reference
              ++ lit "?translation=" ++ translation in
   response <~ requests_get url ;;
   lift (
     if (status_code response =? 200)%Z then
       data <- response_json response ;;
       has_error <- py_in (lit "error") data ;;
       if has_error : bool then
         e <- py_getitem data (lit "error") ;;
         Returns (lit "Error: " ++ py_str e)
       else
         r <- py_getitem data (lit "reference") ;;
         tn <- py_getitem data (lit "translation_name") ;;
         t <- py_getitem data (lit "text") ;;
         text <- py_strip t ;;
         Returns (py_str r ++ lit " (" ++ py_str tn ++ lit "):" ++ nl ++ text)
     else
       Returns (lit "Error fetching verse: HTTP "
                ++ dec (status_code response)))).

Definition search_verses (query : pystr) (limit : option Z) : io pystr :=
  (let limit := or_int limit 10 in
   let url := lit "https://bible-api.com/search/" ++ query
              ++ lit "?limit=" ++ dec limit in
   response <~ requests_get url ;;
   lift (
     if (status_code response =? 200)%Z then
       data <- response_json response ;;
       empty <- (if negb (truthy data) then Returns true
                 else n <- py_len data ;; Returns (Nat.eqb n 0)) ;;
       if empty : bool then
         Returns (lit "No verses found containing '" ++ query ++ lit "'")
       else
         page <- py_slice_to data limit ;;
         items <- py_iter page ;;
         results <- py_for items (fun verse results =>
           r <- py_getitem verse (lit "reference") ;;
           t <- py_getitem verse (lit "text") ;;
           text <- py_strip t ;;
           Returns (results ++ [py_str r ++ lit ": " ++ text]))
           ([] : list pystr) ;;
         Returns (lit "Found " ++ dec (Z.of_nat (length results))
                  ++ lit " verse(s) for '" ++ query ++ lit "':" ++ nl ++ nl
                  ++ join (nl ++ nl) results)
     else
       Returns (lit "Error searching verses: HTTP "
                ++ dec (status_code response)))).

Definition get_chapter (book_chapter : pystr) (translation : option pystr)
  : io pystr :=
  (let translation := or_str translation (lit "kjv") in
   let url := lit "https://bible-api.com/" ++ book_chapter
              ++ lit "?translation=" ++ translation in
   response <~ requests_get url ;;
   lift (
     if (status_code response =? 200)%Z then
       data <- response_json response ;;
       has_error <- py_in (lit "error") data ;;
       if has_error : bool then
         e <- py_getitem data (lit "error") ;;
         Returns (lit "Error: " ++ py_str e)
       else
         r <- py_getitem data (lit "reference") ;;
         tn <- py_getitem data (lit "translation_name") ;;
         let chapter_text :=
           py_str r ++ lit " (" ++ py_str tn ++ lit "):" ++ nl ++ nl in
         vs <- py_getitem data (lit "verses") ;;
         items <- py_iter vs ;;
         chapter_text <- py_for items (fun verse chapter_text =>
           n <- py_getitem verse (lit "verse") ;;
           t <- py_getitem verse (lit "text") ;;
           Returns (chapter_text ++ py_str n ++ lit ". " ++ py_str t ++ nl))
           chapter_text ;;
         Returns (strip chapter_text)
     else
       Returns (lit "Error fetching chapter: HTTP "
                ++ dec (status_code response)))).

Definition inspiring_verses : list pystr :=
  [ lit "Jeremiah 29:11"; lit "Romans 8:28"; lit "Philippians 4:13";
    lit "John 3:16"; lit "Psalm 23:1"; lit "Isaiah 40:31";
    lit "Proverbs 3:5-6"; lit "Matthew 28:20"; lit "Romans 8:31";
    lit "Ephesians 2:8-9"; lit "Psalm 46:1"; lit "Isaiah 41:10" ].

Definition get_random_verse (translation : option pystr) : io pystr :=
  (verse_ref <~ random_choice inspiring_verses ;;
   let translation := or_str translation (lit "kjv") in
   let url := lit "https://bible-api.com/" ++ verse_ref
              ++ lit "?translation=" ++ translation in
   response <~ requests_get url ;;
   lift (
     if (status_code response =? 200)%Z then
       data <- response_json response ;;
       r <- py_getitem data (lit "reference") ;;
       tn <- py_getitem data (lit "translation_name") ;;
       t <- py_getitem data (lit "text") ;;
       text <- py_strip t ;;
       Returns (lit "Random Verse - " ++ py_str r ++ lit " ("
                ++ py_str tn ++ lit "):" ++ nl ++ text)
     else
       Returns (lit "Error fetching random verse: HTTP "
                ++ dec (status_code response)))).

End Server.

(** ** Resources *)

Definition books : list pystr :=
  [ lit "Genesis (Gen)"; lit "Exodus (Exo)"; lit "Leviticus (Lev)";
    lit "Numbers (Num)"; lit "Deuteronomy (Deu)"; lit "Joshua (Jos)";
    lit "Judges (Jdg)"; lit "Ruth (Rut)"; lit "1 Samuel (1Sa)";
    lit "2 Samuel (2Sa)"; lit "1 Kings (1Ki)"; lit "2 Kings (2Ki)";
    lit "1 Chronicles (1Ch)"; lit "2 Chronicles (2Ch)"; lit "Ezra (Ezr)";
    lit "Nehemiah (Neh)"; lit "Esther (Est)"; lit "Job (Job)";
    lit "Psalms (Psa)"; lit "Proverbs (Pro)"; lit "Ecclesiastes (Ecc)";
    lit "Song of Solomon (Son)"; lit "Isaiah (Isa)"; lit "Jeremiah (Jer)";
    lit "Lamentations (Lam)"; lit "Ezekiel (Eze)"; lit "Daniel (Dan)";
    lit "Hosea (Hos)"; lit "Joel (Joe)"; lit "Amos (Amo)";
    lit "Obadiah (Oba)"; lit "Jonah (Jon)"; lit "Micah (Mic)";
    lit "Nahum (Nah)"; lit "Habakkuk (Hab)"; lit "Zephaniah (Zep)";
    lit "Haggai (Hag)"; lit "Zechariah (Zec)"; lit "Malachi (Mal)";
    lit "Matthew (Mat)"; lit "Mark (Mar)"; lit "Luke (Luk)";
    lit "John (Joh)"; lit "Acts (Act)"; lit "Romans (Rom)";
    lit "1 Corinthians (1Co)"; lit "2 Corinthians (2Co)";
    lit "Galatians (Gal)"; lit "Ephesians (Eph)"; lit "Philippians (Phi)";
    lit "Colossians (Col)"; lit "1 Thessalonians (1Th)";
    lit "2 Thessalonians (2Th)"; lit "1 Timothy (1Ti)";
    lit "2 Timothy (2Ti)"; lit "Titus (Tit)"; lit "Philemon (Phm)";
    lit "Hebrews (Heb)"; lit "James (Jam)"; lit "1 Peter (1Pe)";
    lit "2 Peter (2Pe)"; lit "1 John (1Jo)"; lit "2 John (2Jo)";
    lit "3 John (3Jo)"; lit "Jude (Jud)"; lit "Revelation (Rev)" ].

(** [enumerate(seq)]. *)
Definition enumerate {A} (seq : list A) : list (nat * A) :=
  combine (List.seq 0 (length seq)) seq.

Definition bible_books : pystr :=
  lit "Bible Books (" ++ dec (Z.of_nat (length books)) ++ lit " total):"
  ++ nl ++ nl
  ++ join nl (map (fun ib : nat * pystr =>
                     let (i, book) := ib in
                     fmt_2d (Z.of_nat i + 1) ++ lit ". " ++ book)
                (enumerate books)).

(** A book entry: a name, a space and a three-character abbreviation in
    parentheses. *)
Definition has_abbreviation (book : pystr) : bool :=
  match rev book with
  | 41%N :: _ :: _ :: _ :: 40%N :: 32%N :: _ :: _ => true
  | _ => false
  end.

(** The table keeps the order in which the source writes its entries. *)
Definition translations : list (pystr * pystr) :=
  [ (lit "KJV", lit "King James Version (1769)");
    (lit "ASV", lit "American Standard Version (1901)");
    (lit "BBE", lit "Bible in Basic English (1965)");
    (lit "WEB", lit "World English Bible");
    (lit "YLT", lit "Youngs Literal Translation (1898)");
    (lit "DARBY", lit "Darby Translation (1890)") ].

Definition bible_translations : pystr :=
  lit "Available Bible Translations:" ++ nl ++ nl
  ++ join nl (map (fun cn : pystr * pystr =>
                     let (code, name) := cn in code ++ lit ": " ++ name)
                translations)
  ++ nl ++ nl
  ++ lit "Note: Use the code (e.g., 'KJV') when specifying translation in tools.".

(** ** Prompts

    The templates are the literals of the source, line breaks included. *)

Definition bible_study_head : pystr :=
  lit "Create a comprehensive Bible study guide for: ".

Definition bible_study_middle : pystr :=
  lit "

Study Level: ".

Definition bible_study_tail : pystr :=
  lit "

Please include:
1. **Key Verses**: 3-5 relevant Bible verses with references
2. **Context**: Historical and cultural background
3. **Main Themes**: Core theological concepts
4. **Application**: How this applies to modern life
5. **Discussion Questions**: 3-4 thought-provoking questions
6. **Prayer Points**: Suggested areas for prayer
7. **Further Study**: Related passages or topics to explore

Make this study guide practical and accessible for personal or group study.".

Definition bible_study (topic_or_passage study_level : pystr) : pystr :=
  bible_study_head ++ topic_or_passage ++ bible_study_middle ++ study_level ++ bible_study_tail.

Definition daily_reflection_head : pystr :=
  lit "Daily Devotional Reflection

**Scripture Focus**: ".

Definition daily_reflection_middle : pystr :=
  lit "
**Life Focus**: ".

Definition daily_reflection_tail : pystr :=
  lit "

Create a meaningful daily devotional that includes:

1. **Opening Prayer**: A brief prayer to center the heart
2. **Scripture Reading**: The full text of the verse(s)
3. **Reflection**: 2-3 paragraphs exploring the meaning and relevance
4. **Personal Application**: Specific ways to apply this truth today
5. **Closing Prayer**: A prayer incorporating the day's lesson
6. **Action Step**: One concrete step to take today

Write this in a warm, encouraging tone that speaks to both heart and mind. Make it practical for someone's daily walk with God.".

Definition daily_reflection (verse_or_theme focus_area : pystr) : pystr :=
  daily_reflection_head ++ verse_or_theme ++ daily_reflection_middle ++ focus_area ++ daily_reflection_tail.

(** * Vocabulary of the properties *)

(** A string has a character that [strip] keeps. *)
Definition has_nonspace (s : pystr) : bool :=
  existsb (fun c => negb (is_space c)) s.

(** All but the last line as they are, the last one right-stripped. *)
Fixpoint rstrip_last (ls : list pystr) : list pystr :=
  match ls with
  | [] => []
  | [l] => [rstrip l]
  | l :: rest => l :: rstrip_last rest
  end.

(** The upstream service answered every request of a run with [resp]. *)
Definition answered {A} (w : world) (run : list pystr * outcome A)
    (resp : response) : Prop :=
  forall url, In url (requested run) -> network w url = Returns resp.

Section Entries.

Context {interpreter : StrRepr}.

(** An upstream verse entry with its number and its text. *)
Definition verse_entry (v : json) (nt : json * json) : Prop :=
  exists e,
    v = JDict e
    /\ lookup (lit "verse") e = Some (fst nt)
    /\ lookup (lit "text") e = Some (snd nt).

(** The line of a verse: its number, [". "], its text. *)
Definition render_verse (nt : json * json) : pystr :=
  py_str (fst nt) ++ lit ". " ++ py_str (snd nt).

(** An upstream match with its reference and its text. *)
Definition match_entry (v : json) (rt : json * pystr) : Prop :=
  exists e,
    v = JDict e
    /\ lookup (lit "reference") e = Some (fst rt)
    /\ lookup (lit "text") e = Some (JStr (snd rt)).

(** The entry of a match: its reference, [": "], its stripped text. *)
Definition render_match (rt : json * pystr) : pystr :=
  py_str (fst rt) ++ lit ": " ++ strip (snd rt).

End Entries.

(** ** Sample runs *)

(** [repr] on strings that need no escaping: printable characters, no
    quote and no backslash.  It closes the concrete runs below. *)
Definition repr_plain : StrRepr := fun s => lit "'" ++ s ++ lit "'".

(** A world whose upstream gives every request the same reply. *)
Definition always (reply : response) (draw : nat) : world :=
  mkWorld (fun _ => Returns reply) draw.

Definition john_document : list (pystr * json) :=
  [ (lit "reference", JStr (lit "John 3:16"));
    (lit "text",
     JStr (nl ++ lit "For God so loved the world." ++ nl));
    (lit "translation_id", JStr (lit "kjv"));
    (lit "translation_name", JStr (lit "King James Version")) ].

Definition john_reply : response := mkResponse 200 (Some (JDict john_document)).

Definition error_document : list (pystr * json) :=
  [ (lit "error", JStr (lit "not found")) ].

Definition error_reply : response :=
  mkResponse 200 (Some (JDict error_document)).

Definition not_found_reply : response :=
  mkResponse 404 (Some (JDict error_document)).

Definition psalm_verses : list json :=
  [ JDict [ (lit "book_name", JStr (lit "Psalms")); (lit "chapter", JInt 117);
            (lit "verse", JInt 1);
            (lit "text", JStr (lit "O praise the LORD, all ye nations.")) ];
    JDict [ (lit "book_name", JStr (lit "Psalms")); (lit "chapter", JInt 117);
            (lit "verse", JInt 2);
            (lit "text", JStr (lit "Praise ye the LORD. ")) ] ].

Definition psalm_document : list (pystr * json) :=
  [ (lit "reference", JStr (lit "Psalm 117"));
    (lit "verses", JList psalm_verses);
    (lit "translation_name", JStr (lit "King James Version")) ].

Definition psalm_reply : response :=
  mkResponse 200 (Some (JDict psalm_document)).

Definition found (reference text : string) : json :=
  JDict [ (lit "reference", JStr (lit reference));
          (lit "text", JStr (lit text ++ nl)) ].

Definition love_matches : list json :=
  [ found "John 3:16" "For God so loved the world.";
    found "1 John 4:8" "God is love.";
    found "1 John 4:19" "We love him, because he first loved us.";
    found "Romans 13:10" "Love worketh no ill to his neighbour.";
    found "Proverbs 10:12" "Love covereth all sins." ].

Definition love_reply : response := mkResponse 200 (Some (JList love_matches)).

Definition no_match_reply : response := mkResponse 200 (Some (JList [])).

(** * Properties *)

Arguments lit : simpl never.
Arguments dec : simpl never.
Arguments strip : simpl never.

(** ** The string operations on small inputs *)

Example dec_status :
  dec 404 = lit "404" /\ dec 0 = lit "0" /\ dec (-7) = lit "-7".
Proof. repeat (split; [reflexivity|]). reflexivity. Qed.

Example fmt_2d_columns : fmt_2d 7 = lit " 7" /\ fmt_2d 66 = lit "66".
Proof. split; reflexivity. Qed.

Example strip_both_ends :
  strip (nl ++ lit "  In the beginning. " ++ nl) = lit "In the beginning.".
Proof. reflexivity. Qed.

Example slice_to_stops :
  slice_to [1; 2; 3; 4; 5] 2 = [1; 2]
  /\ slice_to [1; 2; 3; 4; 5] 9 = [1; 2; 3; 4; 5]
  /\ slice_to [1; 2; 3; 4; 5] (-1) = [1; 2; 3; 4]
  /\ slice_to [1; 2; 3; 4; 5] (-9) = [].
Proof. repeat (split; [reflexivity|]). reflexivity. Qed.

Example split_lines_blank :
  split_lines (lit "a" ++ nl ++ nl ++ lit "b") = [lit "a"; []; lit "b"].
Proof. reflexivity. Qed.

Example or_defaults :
  or_str None (lit "kjv") = lit "kjv"
  /\ or_str (Some []) (lit "kjv") = lit "kjv"
  /\ or_str (Some (lit "web")) (lit "kjv") = lit "web"
  /\ or_int None 10 = 10%Z /\ or_int (Some 0%Z) 10 = 10%Z
  /\ or_int (Some 2%Z) 10 = 2%Z.
Proof. repeat (split; [reflexivity|]). reflexivity. Qed.

(** ** Strings and lookups *)

Lemma lookup_none_not_in key d :
  lookup key d = None ->
  existsb (fun kv : pystr * json => pystr_eqb (fst kv) key) d = false.
Proof.
  induction d as [|[k v] d IH]; simpl; [reflexivity|].
  destruct (pystr_eqb k key); [discriminate|]. exact IH.
Qed.

Lemma lookup_some_in key d v :
  lookup key d = Some v ->
  existsb (fun kv : pystr * json => pystr_eqb (fst kv) key) d = true.
Proof.
  induction d as [|[k u] d IH]; simpl; [discriminate|].
  destruct (pystr_eqb k key); [reflexivity|]. exact IH.
Qed.

Lemma starts_with_app p b : starts_with p (p ++ b) = true.
Proof.
  induction p as [|x p IH]; simpl; [reflexivity|].
  now rewrite N.eqb_refl, IH.
Qed.

Lemma is_substring_head p s :
  starts_with p s = true -> is_substring p s = true.
Proof. intros H. destruct s; simpl; rewrite H; reflexivity. Qed.

Lemma is_substring_app a p b : is_substring p (a ++ p ++ b) = true.
Proof.
  induction a as [|x a IH]; simpl.
  - apply is_substring_head, starts_with_app.
  - rewrite IH. apply orb_true_r.
Qed.

Lemma has_nonspace_app a b :
  has_nonspace (a ++ b) = has_nonspace a || has_nonspace b.
Proof. apply existsb_app. Qed.

Lemma has_nonspace_rev a : has_nonspace a = true -> has_nonspace (rev a) = true.
Proof.
  unfold has_nonspace. rewrite !existsb_exists.
  intros (c & Hin & Hc). exists c. split; [|exact Hc].
  apply in_rev. rewrite rev_involutive. exact Hin.
Qed.

Lemma drop_while_app p a b :
  existsb (fun c => negb (p c)) a = true ->
  drop_while p (a ++ b) = drop_while p a ++ b.
Proof.
  induction a as [|c a IH]; simpl; [discriminate|].
  destruct (p c); simpl; [exact IH | reflexivity].
Qed.

Lemma drop_while_incl p s c : In c (drop_while p s) -> In c s.
Proof.
  induction s as [|x s IH]; simpl; [tauto|].
  destruct (p x); simpl; [right; apply IH; assumption | tauto].
Qed.

Lemma lstrip_app a b :
  has_nonspace a = true -> lstrip (a ++ b) = lstrip a ++ b.
Proof. apply drop_while_app. Qed.

Lemma rstrip_app a b :
  has_nonspace b = true -> rstrip (a ++ b) = a ++ rstrip b.
Proof.
  intros Hb. unfold rstrip.
  rewrite rev_app_distr, drop_while_app by (apply has_nonspace_rev, Hb).
  rewrite rev_app_distr, rev_involutive. reflexivity.
Qed.

Lemma rstrip_space_end a c :
  is_space c = true -> rstrip (a ++ [c]) = rstrip a.
Proof.
  intros Hc. unfold rstrip. rewrite rev_app_distr. simpl.
  rewrite Hc. reflexivity.
Qed.

Lemma lstrip_incl s c : In c (lstrip s) -> In c s.
Proof. apply drop_while_incl. Qed.

Lemma rstrip_incl s c : In c (rstrip s) -> In c s.
Proof.
  unfold rstrip. intros H. apply in_rev in H.
  apply drop_while_incl in H. apply in_rev. exact H.
Qed.

(** Splitting what [join] built gives the lines back. *)
Lemma split_lines_aux_line cur a b :
  ~ In LF a ->
  split_lines_aux cur (a ++ LF :: b) = (rev cur ++ a) :: split_lines b.
Proof.
  revert cur. induction a as [|c a IH]; intros cur Ha; simpl.
  - rewrite app_nil_r. reflexivity.
  - destruct (N.eqb_spec c LF) as [E|_].
    + exfalso. apply Ha. left. exact E.
    + rewrite IH by (intros H; apply Ha; right; exact H).
      simpl. rewrite <- app_assoc. reflexivity.
Qed.

Lemma split_lines_aux_last cur a :
  ~ In LF a -> split_lines_aux cur a = [rev cur ++ a].
Proof.
  revert cur. induction a as [|c a IH]; intros cur Ha; simpl.
  - rewrite app_nil_r. reflexivity.
  - destruct (N.eqb_spec c LF) as [E|_].
    + exfalso. apply Ha. left. exact E.
    + rewrite IH by (intros H; apply Ha; right; exact H).
      simpl. rewrite <- app_assoc. reflexivity.
Qed.

Lemma split_lines_join ls :
  ls <> [] -> Forall (fun l => ~ In LF l) ls ->
  split_lines (join nl ls) = ls.
Proof.
  induction ls as [|l ls IH]; intros Hne Hall; [contradiction|].
  inversion Hall as [|? ? Hl Hls]; subst.
  destruct ls as [|l' ls].
  - simpl. unfold split_lines. rewrite split_lines_aux_last by exact Hl.
    reflexivity.
  - change (join nl (l :: l' :: ls)) with (l ++ LF :: join nl (l' :: ls)).
    unfold split_lines at 1. rewrite split_lines_aux_line by exact Hl.
    rewrite IH by (exact Hls || discriminate). reflexivity.
Qed.

Lemma rstrip_last_nonempty l ls : rstrip_last (l :: ls) <> [].
Proof. destruct ls; discriminate. Qed.

Lemma length_rstrip_last ls : length (rstrip_last ls) = length ls.
Proof.
  induction ls as [|l [|l' ls] IH]; simpl in *; [reflexivity ..|].
  now rewrite IH.
Qed.

Lemma rstrip_last_no_lf ls :
  Forall (fun l => ~ In LF l) ls ->
  Forall (fun l => ~ In LF l) (rstrip_last ls).
Proof.
  induction ls as [|l [|l' ls] IH]; intros Hall; simpl.
  - constructor.
  - inversion Hall; subst. constructor; [|constructor].
    intros H. apply rstrip_incl in H. contradiction.
  - inversion Hall; subst. constructor; [assumption|]. apply IH. assumption.
Qed.

(** Right-stripping lines that each end in a line feed strips the last
    line and drops its line feed. *)
Lemma rstrip_lines a ls :
  ls <> [] -> Forall (fun l => has_nonspace l = true) ls ->
  rstrip (a ++ concat (map (fun l => l ++ nl) ls))
  = a ++ join nl (rstrip_last ls).
Proof.
  revert a. induction ls as [|l ls IH]; intros a Hne Hall; [contradiction|].
  inversion Hall as [|? ? Hl Hls]; subst.
  destruct ls as [|l' ls].
  - simpl. rewrite app_nil_r, app_assoc. unfold nl.
    rewrite rstrip_space_end by reflexivity.
    apply rstrip_app. exact Hl.
  - change (concat (map (fun l => l ++ nl) (l :: l' :: ls)))
      with ((l ++ nl) ++ concat (map (fun l => l ++ nl) (l' :: ls))).
    rewrite app_assoc, IH by (exact Hls || discriminate).
    change (rstrip_last (l :: l' :: ls)) with (l :: rstrip_last (l' :: ls)).
    pose proof (@rstrip_last_nonempty l' ls) as Hn.
    destruct (rstrip_last (l' :: ls)) as [|x xs]; [contradiction|].
    simpl. rewrite <- !app_assoc. reflexivity.
Qed.

Lemma has_nonspace_mid a m b :
  has_nonspace m = true -> has_nonspace (a ++ m ++ b) = true.
Proof.
  intros Hm. rewrite !has_nonspace_app, Hm.
  rewrite orb_true_l. apply orb_true_r.
Qed.

Lemma Forall2_firstn {A B} (R : A -> B -> Prop) n l l' :
  Forall2 R l l' -> Forall2 R (firstn n l) (firstn n l').
Proof.
  intros H. revert n. induction H; intros [|n]; simpl; constructor; auto.
Qed.

(** The lines of a stripped chapter text, when no line holds a line
    feed of its own. *)
Lemma chapter_lines_split header rendered :
  ~ In LF header ->
  Forall (fun l => ~ In LF l) rendered ->
  let lines :=
    lstrip header
    :: match rendered with
       | [] => []
       | _ :: _ => [] :: rstrip_last rendered
       end in
  split_lines (join nl lines) = lines
  /\ length (skipn 2 lines) = length rendered.
Proof.
  intros Hheader Hrendered.
  assert (~ In LF (lstrip header)) as Hh
    by (intros H; apply lstrip_incl in H; contradiction).
  destruct rendered as [|l ls]; cbv zeta.
  - split; [|reflexivity].
    apply split_lines_join; [discriminate|]. constructor; [exact Hh|constructor].
  - split; [|cbn [skipn]; apply length_rstrip_last].
    apply split_lines_join; [discriminate|].
    constructor; [exact Hh|]. constructor; [intros []|].
    apply rstrip_last_no_lf. exact Hrendered.
Qed.

(** ** Running a tool *)

Lemma run_bind_get {A} url (k : response -> outcome A) w :
  (response <~ requests_get url ;; lift (k response)) w
  = ([url], obind (network w url) k).
Proof.
  unfold io_bind, requests_get, lift.
  destruct (network w url); reflexivity.
Qed.

Lemma run_bind_choice {A B} (seq : list A) (k : A -> io B) w x :
  nth_error seq (draw w mod length seq) = Some x ->
  (v <~ random_choice seq ;; k v) w = k x w.
Proof.
  intros Hx. unfold io_bind, random_choice. rewrite Hx.
  destruct (k x w). reflexivity.
Qed.

Lemma answered_single {A} w url (o : outcome A) resp :
  answered w ([url], o) resp -> network w url = Returns resp.
Proof. intros H. apply H. left. reflexivity. Qed.

(** Unfold a tool that starts with its request, and use the reply. *)
Ltac step :=
  cbn [obind py_in py_getitem py_strip py_iter py_len py_slice_to snd].

Ltac run_request Hans :=
  rewrite run_bind_get in Hans |- *;
  rewrite (answered_single Hans); unfold result; step.

Ltac with_status_200 Hst Hbody :=
  rewrite Hst, Z.eqb_refl; unfold response_json; rewrite Hbody; step.

Ltac with_other_status Hst :=
  match goal with
  | |- context [(?c =? 200)%Z] =>
      destruct (Z.eqb_spec c 200) as [E|_]; [contradiction (Hst E)|]
  end.

Section Properties.

Context {interpreter : StrRepr}.

Lemma choice_inspiring w :
  exists verse_ref,
    nth_error inspiring_verses (draw w mod length inspiring_verses)
    = Some verse_ref
    /\ In verse_ref inspiring_verses.
Proof.
  destruct (nth_error inspiring_verses (draw w mod length inspiring_verses))
    as [v|] eqn:E.
  - exists v. split; [reflexivity|]. eapply nth_error_In; eassumption.
  - apply nth_error_None in E.
    assert (draw w mod length inspiring_verses < length inspiring_verses)
      by (apply Nat.mod_upper_bound; discriminate).
    lia.
Qed.

(** *** Verse lookup *)

(** C1. A 200 reply without [error] field is rendered as the reference,
    [" ("], the translation name, ["):"], a line feed and the stripped
    text; in particular the result starts with the reference followed by
    [" (").  The f-string renders a field with [py_str], which leaves a
    string as it is. *)
Theorem get_verse_success reference translation w resp d r tn text :
  answered w (get_verse reference translation w) resp ->
  status_code resp = 200%Z ->
  body resp = Some (JDict d) ->
  lookup (lit "error") d = None ->
  lookup (lit "reference") d = Some r ->
  lookup (lit "translation_name") d = Some tn ->
  lookup (lit "text") d = Some (JStr text) ->
  result (get_verse reference translation w)
  = Returns (py_str r ++ lit " (" ++ py_str tn ++ lit "):" ++ nl
             ++ strip text)
  /\ exists out,
       result (get_verse reference translation w) = Returns out
       /\ starts_with (py_str r ++ lit " (") out = true.
Proof.
  intros Hans Hst Hbody Herr Hr Htn Ht.
  assert (result (get_verse reference translation w)
          = Returns (py_str r ++ lit " (" ++ py_str tn ++ lit "):" ++ nl
                     ++ strip text))
    as Hres.
  { unfold get_verse in *. run_request Hans. with_status_200 Hst Hbody.
    rewrite (lookup_none_not_in _ _ Herr). step.
    rewrite Hr, Htn, Ht. reflexivity. }
  split; [exact Hres|].
  eexists. split; [exact Hres|].
  rewrite (app_assoc (py_str r)). apply starts_with_app.
Qed.

(** The upstream error document is reported by the verse lookup. *)
Lemma get_verse_error_reply reference translation w resp d e :
  answered w (get_verse reference translation w) resp ->
  status_code resp = 200%Z ->
  body resp = Some (JDict d) ->
  lookup (lit "error") d = Some e ->
  result (get_verse reference translation w)
  = Returns (lit "Error: " ++ py_str e).
Proof.
  intros Hans Hst Hbody Herr.
  unfold get_verse in *. run_request Hans. with_status_200 Hst Hbody.
  rewrite (lookup_some_in _ _ Herr). step. rewrite Herr. reflexivity.
Qed.

(** *** Random verse *)

(** C2. On a 200 reply that carries an [error] field and no [reference],
    the random-verse tool does not test for the field: the lookup of
    [reference] raises [KeyError]. *)
Theorem get_random_verse_error_reply_raises translation w resp d e :
  answered w (get_random_verse translation w) resp ->
  status_code resp = 200%Z ->
  body resp = Some (JDict d) ->
  lookup (lit "error") d = Some e ->
  lookup (lit "reference") d = None ->
  result (get_random_verse translation w) = Raises KeyError.
Proof.
  intros Hans Hst Hbody Herr Hr.
  destruct (choice_inspiring w) as (v & Hv & _).
  unfold get_random_verse in *.
  rewrite (run_bind_choice _ _ _ Hv) in Hans |- *.
  run_request Hans. with_status_200 Hst Hbody.
  rewrite Hr. reflexivity.
Qed.

(** *** Requests *)

Lemma get_verse_requested reference translation w :
  requested (get_verse reference translation w)
  = [lit "https://bible-api.com/" ++ reference ++ lit "?translation="
     ++ or_str translation (lit "kjv")].
Proof. unfold get_verse. rewrite run_bind_get. reflexivity. Qed.

Lemma get_chapter_requested book_chapter translation w :
  requested (get_chapter book_chapter translation w)
  = [lit "https://bible-api.com/" ++ book_chapter ++ lit "?translation="
     ++ or_str translation (lit "kjv")].
Proof. unfold get_chapter. rewrite run_bind_get. reflexivity. Qed.

Lemma get_random_verse_requested translation w :
  exists verse_ref,
    In verse_ref inspiring_verses
    /\ requested (get_random_verse translation w)
       = [lit "https://bible-api.com/" ++ verse_ref ++ lit "?translation="
          ++ or_str translation (lit "kjv")].
Proof.
  destruct (choice_inspiring w) as (v & Hv & Hin).
  exists v. split; [exact Hin|].
  unfold get_random_verse. rewrite (run_bind_choice _ _ _ Hv).
  rewrite run_bind_get. reflexivity.
Qed.

(** C7. With a falsy translation argument ([None] or the empty string)
    the one URL a tool requests carries the translation [kjv]. *)
Theorem falsy_translation_requests_kjv w :
  (forall reference,
     requested (get_verse reference None w)
     = [lit "https://bible-api.com/" ++ reference ++ lit "?translation=kjv"]
     /\ requested (get_verse reference (Some []) w)
        = [lit "https://bible-api.com/" ++ reference
           ++ lit "?translation=kjv"])
  /\ (forall book_chapter,
        requested (get_chapter book_chapter None w)
        = [lit "https://bible-api.com/" ++ book_chapter
           ++ lit "?translation=kjv"]
        /\ requested (get_chapter book_chapter (Some []) w)
           = [lit "https://bible-api.com/" ++ book_chapter
              ++ lit "?translation=kjv"])
  /\ (exists verse_ref,
        requested (get_random_verse None w)
        = [lit "https://bible-api.com/" ++ verse_ref
           ++ lit "?translation=kjv"]
        /\ requested (get_random_verse (Some []) w)
           = [lit "https://bible-api.com/" ++ verse_ref
              ++ lit "?translation=kjv"]).
Proof.
  split; [|split].
  - intros reference. split; apply get_verse_requested.
  - intros book_chapter. split; apply get_chapter_requested.
  - destruct (choice_inspiring w) as (v & Hv & _).
    exists v. unfold get_random_verse.
    rewrite !(run_bind_choice _ _ _ Hv), !run_bind_get. split; reflexivity.
Qed.

(** C8. Whatever the generator draws, the reference in the requested URL
    is an entry of the fixed list of twelve, a constant of the program. *)
Theorem random_verse_reference_from_list translation w :
  length inspiring_verses = 12
  /\ exists verse_ref,
       In verse_ref inspiring_verses
       /\ requested (get_random_verse translation w)
          = [lit "https://bible-api.com/" ++ verse_ref
             ++ lit "?translation=" ++ or_str translation (lit "kjv")].
Proof.
  split; [reflexivity|]. apply get_random_verse_requested.
Qed.

(** *** Replies other than 200 *)

(** C4. When the upstream status is not 200, each of the four tools
    returns its error text, which ends in ["HTTP "] and the status code in
    decimal. *)
Theorem non_200_reports_status w resp :
  status_code resp <> 200%Z ->
  let code := lit "HTTP " ++ dec (status_code resp) in
  (forall reference translation,
     answered w (get_verse reference translation w) resp ->
     result (get_verse reference translation w)
     = Returns (lit "Error fetching verse: " ++ code))
  /\ (forall query limit,
        answered w (search_verses query limit w) resp ->
        result (search_verses query limit w)
        = Returns (lit "Error searching verses: " ++ code))
  /\ (forall book_chapter translation,
        answered w (get_chapter book_chapter translation w) resp ->
        result (get_chapter book_chapter translation w)
        = Returns (lit "Error fetching chapter: " ++ code))
  /\ (forall translation,
        answered w (get_random_verse translation w) resp ->
        result (get_random_verse translation w)
        = Returns (lit "Error fetching random verse: " ++ code))
  /\ (forall prefix,
        is_substring code (prefix ++ code) = true).
Proof.
  intros Hst code. repeat split.
  - intros reference translation Hans.
    unfold get_verse in *. run_request Hans. with_other_status Hst.
    reflexivity.
  - intros query limit Hans.
    unfold search_verses in *. run_request Hans. with_other_status Hst.
    reflexivity.
  - intros book_chapter translation Hans.
    unfold get_chapter in *. run_request Hans. with_other_status Hst.
    reflexivity.
  - intros translation Hans.
    destruct (choice_inspiring w) as (v & Hv & _).
    unfold get_random_verse in *.
    rewrite (run_bind_choice _ _ _ Hv) in Hans |- *.
    run_request Hans. with_other_status Hst. reflexivity.
  - intros prefix. rewrite <- (app_nil_r code) at 2.
    apply is_substring_app.
Qed.

(** *** Search *)

(** C6. A 200 reply whose document is falsy (an empty list, [null], ...)
    yields exactly the no-match text for the query. *)
Theorem search_verses_no_results query limit w resp data :
  answered w (search_verses query limit w) resp ->
  status_code resp = 200%Z ->
  body resp = Some data ->
  truthy data = false ->
  result (search_verses query limit w)
  = Returns (lit "No verses found containing '" ++ query ++ lit "'").
Proof.
  intros Hans Hst Hbody Hdata.
  unfold search_verses in *. run_request Hans. with_status_200 Hst Hbody.
  rewrite Hdata. reflexivity.
Qed.

(** *** Chapter *)

Lemma chapter_loop items fields chapter_text :
  Forall2 verse_entry items fields ->
  py_for items (fun verse chapter_text =>
    n <- py_getitem verse (lit "verse") ;;
    t <- py_getitem verse (lit "text") ;;
    Returns (chapter_text ++ py_str n ++ lit ". " ++ py_str t ++ nl))
    chapter_text
  = Returns (chapter_text
             ++ concat (map (fun l => l ++ nl) (map render_verse fields))).
Proof.
  intros H. revert chapter_text.
  induction H as [|v nt items fields (e & -> & Hn & Ht) _ IH];
    intros chapter_text; cbn [py_for map concat].
  - rewrite app_nil_r. reflexivity.
  - unfold py_getitem. rewrite Hn, Ht. cbn [obind]. rewrite IH.
    unfold render_verse. rewrite <- !app_assoc. reflexivity.
Qed.

Lemma render_verse_nonspace fields :
  Forall (fun l => has_nonspace l = true) (map render_verse fields).
Proof.
  apply Forall_map, Forall_forall. intros nt _.
  apply has_nonspace_mid. reflexivity.
Qed.

(** What [strip] leaves of a chapter text. *)
Lemma strip_chapter_text header rendered :
  has_nonspace header = true ->
  rstrip header = header ->
  Forall (fun l => has_nonspace l = true) rendered ->
  strip ((header ++ nl ++ nl) ++ concat (map (fun l => l ++ nl) rendered))
  = join nl (lstrip header
             :: match rendered with
                | [] => []
                | _ :: _ => [] :: rstrip_last rendered
                end).
Proof.
  intros Hh Hend Hall. unfold strip.
  rewrite <- !app_assoc, lstrip_app by exact Hh.
  assert (rstrip (lstrip header) = lstrip header) as Hend'.
  { unfold lstrip. revert Hh Hend. clear.
    induction header as [|c h IH]; intros Hh Hend; [discriminate|].
    simpl. destruct (is_space c) eqn:Hc; [|exact Hend].
    simpl in Hh. unfold has_nonspace in Hh. simpl in Hh.
    rewrite Hc in Hh. simpl in Hh.
    apply IH; [exact Hh|].
    change (c :: h) with ([c] ++ h) in Hend.
    rewrite rstrip_app in Hend by exact Hh.
    injection Hend. trivial. }
  destruct rendered as [|l ls].
  - cbn [map concat join]. rewrite app_nil_r. unfold nl.
    rewrite app_assoc, rstrip_space_end by reflexivity.
    rewrite rstrip_space_end by reflexivity. exact Hend'.
  - rewrite (app_assoc (lstrip header)), (app_assoc (lstrip header ++ nl)).
    rewrite rstrip_lines by (exact Hall || discriminate).
    pose proof (@rstrip_last_nonempty l ls) as Hn.
    change (join nl (lstrip header :: [] :: rstrip_last (l :: ls)))
      with (lstrip header ++ nl
            ++ join nl ([] :: rstrip_last (l :: ls))).
    destruct (rstrip_last (l :: ls)) as [|x xs]; [contradiction|].
    simpl. rewrite <- !app_assoc. reflexivity.
Qed.

Lemma chapter_header_shape (r tn : pystr) :
  has_nonspace (r ++ lit " (" ++ tn ++ lit "):") = true
  /\ rstrip (r ++ lit " (" ++ tn ++ lit "):")
     = r ++ lit " (" ++ tn ++ lit "):".
Proof.
  split; [apply has_nonspace_mid; reflexivity|].
  rewrite !app_assoc. apply rstrip_app. reflexivity.
Qed.

(** C3, as the code has it.  A 200 reply without [error] field yields the
    header line with its leading whitespace stripped and, when there is a
    verse, a blank line and one line per verse, ["{verse}. {text}"], the
    last one right-stripped.  When no rendered field holds a line feed,
    the lines after the header and the blank line are as many as the
    upstream entries. *)
Theorem get_chapter_lines book_chapter translation w resp d r tn vs fields :
  answered w (get_chapter book_chapter translation w) resp ->
  status_code resp = 200%Z ->
  body resp = Some (JDict d) ->
  lookup (lit "error") d = None ->
  lookup (lit "reference") d = Some r ->
  lookup (lit "translation_name") d = Some tn ->
  lookup (lit "verses") d = Some (JList vs) ->
  Forall2 verse_entry vs fields ->
  let header := py_str r ++ lit " (" ++ py_str tn ++ lit "):" in
  let rendered := map render_verse fields in
  let lines :=
    lstrip header
    :: match rendered with
       | [] => []
       | _ :: _ => [] :: rstrip_last rendered
       end in
  result (get_chapter book_chapter translation w)
  = Returns (join nl lines)
  /\ (~ In LF header ->
      Forall (fun l => ~ In LF l) rendered ->
      split_lines (join nl lines) = lines
      /\ length (skipn 2 (split_lines (join nl lines))) = length vs).
Proof.
  intros Hans Hst Hbody Herr Hr Htn Hvs Hfields header rendered lines.
  destruct (chapter_header_shape (py_str r) (py_str tn)) as [Hh Hend].
  split.
  - unfold get_chapter in *. run_request Hans. with_status_200 Hst Hbody.
    rewrite (lookup_none_not_in _ _ Herr). step.
    rewrite Hr, Htn, Hvs. step.
    rewrite (chapter_loop _ Hfields). step. f_equal.
    subst lines rendered header.
    rewrite <- (strip_chapter_text Hh Hend (render_verse_nonspace fields)).
    rewrite <- !app_assoc. reflexivity.
  - intros Hheader Hrendered.
    destruct (@chapter_lines_split header rendered Hheader Hrendered)
      as [Hsplit Hlen].
    split; [exact Hsplit|].
    etransitivity;
      [exact (f_equal (fun ls => length (skipn 2 ls)) Hsplit)|].
    etransitivity; [exact Hlen|].
    unfold rendered. rewrite length_map. symmetry.
    eapply Forall2_length. eassumption.
Qed.

(** *** Search results *)

Lemma search_loop items fields results :
  Forall2 match_entry items fields ->
  py_for items (fun verse results =>
    r <- py_getitem verse (lit "reference") ;;
    t <- py_getitem verse (lit "text") ;;
    text <- py_strip t ;;
    Returns (results ++ [py_str r ++ lit ": " ++ text])) results
  = Returns (results ++ map render_match fields).
Proof.
  intros H. revert results.
  induction H as [|v rt items fields (e & -> & Hr & Ht) _ IH];
    intros results; cbn [py_for map].
  - rewrite app_nil_r. reflexivity.
  - unfold py_getitem. rewrite Hr, Ht. step. rewrite IH.
    rewrite <- app_assoc. reflexivity.
Qed.

(** C5, as the code has it.  With a positive limit (10 when the argument
    is falsy) and a non-empty result list, the entries are those of the
    first [limit] matches, fewer when upstream has fewer, each
    ["{reference}: {text stripped}"], joined by blank lines, and the header
    counts the entries included. *)
Theorem search_verses_entries query limit w resp vs shown :
  answered w (search_verses query limit w) resp ->
  status_code resp = 200%Z ->
  body resp = Some (JList vs) ->
  vs <> [] ->
  (0 < or_int limit 10)%Z ->
  Forall2 match_entry (firstn (Z.to_nat (or_int limit 10)) vs) shown ->
  result (search_verses query limit w)
  = Returns (lit "Found " ++ dec (Z.of_nat (length (map render_match shown)))
             ++ lit " verse(s) for '" ++ query ++ lit "':" ++ nl ++ nl
             ++ join (nl ++ nl) (map render_match shown))
  /\ length (map render_match shown)
     = Nat.min (Z.to_nat (or_int limit 10)) (length vs)
  /\ (Z.of_nat (length (map render_match shown)) <= or_int limit 10)%Z.
Proof.
  intros Hans Hst Hbody Hne Hlimit Hshown.
  assert (length (map render_match shown)
          = Nat.min (Z.to_nat (or_int limit 10)) (length vs)) as Hlen.
  { rewrite length_map, <- (Forall2_length Hshown). apply length_firstn. }
  split; [|split; [exact Hlen|lia]].
  unfold search_verses in *. run_request Hans. with_status_200 Hst Hbody.
  destruct vs as [|v vs]; [contradiction|].
  cbn [truthy length Nat.eqb negb]. step.
  unfold slice_to. destruct (Z.ltb_spec (or_int limit 10) 0) as [Hneg|_];
    [lia|].
  rewrite (search_loop _ Hshown). step. reflexivity.
Qed.

End Properties.

(** ** Resources and prompts *)

(** C9. The book list is one constant text: its header, a blank line and
    sixty-six entries, written out below; entry [i] is [i] right-aligned
    in two columns, [". "] and the [i]-th book, a name followed by its
    abbreviation in parentheses. *)
Theorem bible_books_entries :
  let lines :=
    [ lit "Bible Books (66 total):"; []; lit " 1. Genesis (Gen)";
      lit " 2. Exodus (Exo)"; lit " 3. Leviticus (Lev)";
      lit " 4. Numbers (Num)"; lit " 5. Deuteronomy (Deu)";
      lit " 6. Joshua (Jos)"; lit " 7. Judges (Jdg)"; lit " 8. Ruth (Rut)";
      lit " 9. 1 Samuel (1Sa)"; lit "10. 2 Samuel (2Sa)";
      lit "11. 1 Kings (1Ki)"; lit "12. 2 Kings (2Ki)";
      lit "13. 1 Chronicles (1Ch)"; lit "14. 2 Chronicles (2Ch)";
      lit "15. Ezra (Ezr)"; lit "16. Nehemiah (Neh)"; lit "17. Esther (Est)";
      lit "18. Job (Job)"; lit "19. Psalms (Psa)"; lit "20. Proverbs (Pro)";
      lit "21. Ecclesiastes (Ecc)"; lit "22. Song of Solomon (Son)";
      lit "23. Isaiah (Isa)"; lit "24. Jeremiah (Jer)";
      lit "25. Lamentations (Lam)"; lit "26. Ezekiel (Eze)";
      lit "27. Daniel (Dan)"; lit "28. Hosea (Hos)"; lit "29. Joel (Joe)";
      lit "30. Amos (Amo)"; lit "31. Obadiah (Oba)"; lit "32. Jonah (Jon)";
      lit "33. Micah (Mic)"; lit "34. Nahum (Nah)"; lit "35. Habakkuk (Hab)";
      lit "36. Zephaniah (Zep)"; lit "37. Haggai (Hag)";
      lit "38. Zechariah (Zec)"; lit "39. Malachi (Mal)";
      lit "40. Matthew (Mat)"; lit "41. Mark (Mar)"; lit "42. Luke (Luk)";
      lit "43. John (Joh)"; lit "44. Acts (Act)"; lit "45. Romans (Rom)";
      lit "46. 1 Corinthians (1Co)"; lit "47. 2 Corinthians (2Co)";
      lit "48. Galatians (Gal)"; lit "49. Ephesians (Eph)";
      lit "50. Philippians (Phi)"; lit "51. Colossians (Col)";
      lit "52. 1 Thessalonians (1Th)"; lit "53. 2 Thessalonians (2Th)";
      lit "54. 1 Timothy (1Ti)"; lit "55. 2 Timothy (2Ti)";
      lit "56. Titus (Tit)"; lit "57. Philemon (Phm)";
      lit "58. Hebrews (Heb)"; lit "59. James (Jam)";
      lit "60. 1 Peter (1Pe)"; lit "61. 2 Peter (2Pe)";
      lit "62. 1 John (1Jo)"; lit "63. 2 John (2Jo)"; lit "64. 3 John (3Jo)";
      lit "65. Jude (Jud)"; lit "66. Revelation (Rev)" ] in
  length books = 66
  /\ bible_books = join nl lines
  /\ split_lines bible_books = lines
  /\ split_lines bible_books
     = lit "Bible Books (66 total):" :: []
       :: map (fun i => fmt_2d (Z.of_nat i) ++ lit ". " ++ nth (i - 1) books [])
            (List.seq 1 66)
  /\ length (skipn 2 (split_lines bible_books)) = 66
  /\ forallb has_abbreviation books = true.
Proof.
  intros lines.
  split; [|split; [|split; [|split; [|split]]]]; vm_compute; reflexivity.
Qed.

(** C10. The prompts are their fixed template around the two arguments,
    which the output therefore contains as they are; equal arguments give
    equal prompts, and the two resources are constant texts. *)
Theorem prompts_and_resources_pure :
  (forall t l,
     bible_study t l
     = bible_study_head ++ t ++ bible_study_middle ++ l ++ bible_study_tail
     /\ is_substring t (bible_study t l) = true
     /\ is_substring l (bible_study t l) = true)
  /\ (forall v f,
        daily_reflection v f
        = daily_reflection_head ++ v ++ daily_reflection_middle ++ f
          ++ daily_reflection_tail
        /\ is_substring v (daily_reflection v f) = true
        /\ is_substring f (daily_reflection v f) = true)
  /\ (forall t l t' l',
        t = t' -> l = l' -> bible_study t l = bible_study t' l')
  /\ (forall v f v' f',
        v = v' -> f = f' -> daily_reflection v f = daily_reflection v' f')
  /\ bible_translations
     = join nl [ lit "Available Bible Translations:"; [];
                 lit "KJV: King James Version (1769)";
                 lit "ASV: American Standard Version (1901)";
                 lit "BBE: Bible in Basic English (1965)";
                 lit "WEB: World English Bible";
                 lit "YLT: Youngs Literal Translation (1898)";
                 lit "DARBY: Darby Translation (1890)"; [];
                 lit "Note: Use the code (e.g., 'KJV') when specifying translation in tools." ].
Proof.
  split; [|split; [|split; [|split]]].
  - intros t l. split; [reflexivity|]. unfold bible_study. split.
    + apply is_substring_app.
    + rewrite (app_assoc bible_study_head), (app_assoc _ bible_study_middle).
      apply is_substring_app.
  - intros v f. split; [reflexivity|]. unfold daily_reflection. split.
    + apply is_substring_app.
    + rewrite (app_assoc daily_reflection_head),
        (app_assoc _ daily_reflection_middle).
      apply is_substring_app.
  - intros t l t' l' -> ->. reflexivity.
  - intros v f v' f' -> ->. reflexivity.
  - vm_compute. reflexivity.
Qed.

(** * Concrete runs *)

(** C1 at a reply for John 3:16. *)
Lemma get_verse_success_witness :
  result (get_verse (interpreter := repr_plain) (lit "John 3:16") None
            (always john_reply 0))
  = Returns (lit "John 3:16 (King James Version):" ++ nl
             ++ lit "For God so loved the world.").
Proof.
  refine (proj1 (@get_verse_success repr_plain (lit "John 3:16") None
                   (always john_reply 0) john_reply john_document
                   (JStr (lit "John 3:16")) (JStr (lit "King James Version"))
                   (nl ++ lit "For God so loved the world." ++ nl)
                   _ _ _ _ _ _ _)); try reflexivity.
  intros url _. reflexivity.
Defined.

(** C2 at the upstream error document: the random-verse tool raises where
    the verse lookup reports the error. *)
Lemma get_random_verse_error_reply_witness :
  result (get_random_verse (interpreter := repr_plain) None
            (always error_reply 3))
  = Raises KeyError
  /\ result (get_verse (interpreter := repr_plain) (lit "John 3:16") None
               (always error_reply 3))
     = Returns (lit "Error: not found").
Proof.
  split.
  - refine (@get_random_verse_error_reply_raises repr_plain None
              (always error_reply 3) error_reply error_document
              (JStr (lit "not found")) _ _ _ _ _); try reflexivity.
    intros url _. reflexivity.
  - refine (@get_verse_error_reply repr_plain (lit "John 3:16") None
              (always error_reply 3) error_reply error_document
              (JStr (lit "not found")) _ _ _ _); try reflexivity.
    intros url _. reflexivity.
Defined.

(** C3 at a chapter of two verses: the header, a blank line, two lines. *)
Lemma get_chapter_lines_witness :
  result (get_chapter (interpreter := repr_plain) (lit "Psalm 117") None
            (always psalm_reply 0))
  = Returns (join nl [ lit "Psalm 117 (King James Version):"; [];
                       lit "1. O praise the LORD, all ye nations.";
                       lit "2. Praise ye the LORD." ]).
Proof.
  refine (proj1 (@get_chapter_lines repr_plain (lit "Psalm 117") None
                   (always psalm_reply 0) psalm_reply psalm_document
                   (JStr (lit "Psalm 117")) (JStr (lit "King James Version"))
                   psalm_verses
                   [ (JInt 1, JStr (lit "O praise the LORD, all ye nations."));
                     (JInt 2, JStr (lit "Praise ye the LORD. ")) ]
                   _ _ _ _ _ _ _ _)); try reflexivity.
  - intros url _. reflexivity.
  - repeat constructor; eexists; repeat split; reflexivity.
Defined.

(** C3 as stated fails there: the lines after the header line are not as
    many as the two upstream entries, there are three. *)
Lemma get_chapter_line_count_counterexample :
  length psalm_verses = 2
  /\ ~ (forall out,
          result (get_chapter (interpreter := repr_plain) (lit "Psalm 117")
                    None (always psalm_reply 0))
          = Returns out ->
          length (tl (split_lines out)) = length psalm_verses).
Proof.
  split; [reflexivity|]. intros H.
  specialize (H _ eq_refl). vm_compute in H. discriminate H.
Qed.

(** C4 at a 404 reply, for the four tools. *)
Lemma non_200_reports_status_witness :
  result (get_verse (interpreter := repr_plain) (lit "John 3:16") None
            (always not_found_reply 0))
  = Returns (lit "Error fetching verse: HTTP 404")
  /\ result (search_verses (interpreter := repr_plain) (lit "love") (Some 2%Z)
               (always not_found_reply 0))
     = Returns (lit "Error searching verses: HTTP 404")
  /\ result (get_chapter (interpreter := repr_plain) (lit "Psalm 117") None
               (always not_found_reply 0))
     = Returns (lit "Error fetching chapter: HTTP 404")
  /\ result (get_random_verse (interpreter := repr_plain) None
               (always not_found_reply 0))
     = Returns (lit "Error fetching random verse: HTTP 404").
Proof.
  assert (status_code not_found_reply <> 200%Z) as Hst by discriminate.
  destruct (@non_200_reports_status repr_plain (always not_found_reply 0)
              not_found_reply Hst) as (Hv & Hs & Hc & Hr & _).
  split; [|split; [|split]].
  - apply Hv. intros url _. reflexivity.
  - apply Hs. intros url _. reflexivity.
  - apply Hc. intros url _. reflexivity.
  - apply Hr. intros url _. reflexivity.
Defined.

(** C5 at limit 2 against five matches: two entries, and the header says
    so. *)
Lemma search_verses_entries_witness :
  result (search_verses (interpreter := repr_plain) (lit "love") (Some 2%Z)
            (always love_reply 0))
  = Returns (lit "Found 2 verse(s) for 'love':" ++ nl ++ nl
             ++ lit "John 3:16: For God so loved the world." ++ nl ++ nl
             ++ lit "1 John 4:8: God is love.").
Proof.
  refine (proj1 (@search_verses_entries repr_plain (lit "love") (Some 2%Z)
                   (always love_reply 0) love_reply love_matches
                   [ (JStr (lit "John 3:16"),
                      lit "For God so loved the world." ++ nl);
                     (JStr (lit "1 John 4:8"), lit "God is love." ++ nl) ]
                   _ _ _ _ _ _)); try reflexivity.
  - intros url _. reflexivity.
  - discriminate.
  - repeat constructor; eexists; repeat split; reflexivity.
Defined.

(** C5 as stated fails at a negative limit: [data[:-1]] keeps four of the
    five matches, more than the limit. *)
Lemma search_verses_negative_limit_counterexample :
  result (search_verses (interpreter := repr_plain) (lit "love")
            (Some (-1)%Z) (always love_reply 0))
  = Returns (lit "Found 4 verse(s) for 'love':" ++ nl ++ nl
             ++ join (nl ++ nl)
                  [ lit "John 3:16: For God so loved the world.";
                    lit "1 John 4:8: God is love.";
                    lit "1 John 4:19: We love him, because he first loved us.";
                    lit "Romans 13:10: Love worketh no ill to his neighbour." ])
  /\ ~ (4 <= -1)%Z.
Proof.
  split; [vm_compute; reflexivity | lia].
Qed.

(** C6 at an empty result list. *)
Lemma search_verses_no_results_witness :
  result (search_verses (interpreter := repr_plain) (lit "xyzzy") None
            (always no_match_reply 0))
  = Returns (lit "No verses found containing 'xyzzy'").
Proof.
  refine (@search_verses_no_results repr_plain (lit "xyzzy") None
            (always no_match_reply 0) no_match_reply (JList [])
            _ _ _ _); try reflexivity.
  intros url _. reflexivity.
Defined.

(** C10 at a study prompt. *)
Lemma prompts_and_resources_pure_witness :
  bible_study (lit "love") (lit "basic")
  = bible_study (lit "lo" ++ lit "ve") (lit "basic")
  /\ is_substring (lit "love") (bible_study (lit "love") (lit "basic")) = true.
Proof.
  destruct prompts_and_resources_pure as (Hstudy & _ & Hsame & _).
  split.
  - apply Hsame; reflexivity.
  - apply (Hstudy (lit "love") (lit "basic")).
Defined.

(** ** Further runs of the verse lookup *)

Example get_verse_requests_translation :
  requested (get_verse (interpreter := repr_plain) (lit "John 3:16")
               (Some (lit "web")) (always john_reply 0))
  = [lit "https://bible-api.com/John 3:16?translation=web"].
Proof. reflexivity. Qed.

Example get_verse_missing_field :
  result (get_verse (interpreter := repr_plain) (lit "John 3:16") None
            (always (mkResponse 200 (Some (JDict []))) 0))
  = Raises KeyError.
Proof. reflexivity. Qed.

Example get_verse_body_not_json :
  result (get_verse (interpreter := repr_plain) (lit "John 3:16") None
            (always (mkResponse 200 None) 0))
  = Raises JSONDecodeError.
Proof. reflexivity. Qed.

Example get_verse_network_fault :
  result (get_verse (interpreter := repr_plain) (lit "John 3:16") None
            (mkWorld (fun _ => Raises RequestException) 0))
  = Raises RequestException.
Proof. reflexivity. Qed.

(** * Further properties of the tools *)

Section Further.

Context {interpreter : StrRepr}.

Lemma search_verses_requested query limit w :
  requested (search_verses query limit w)
  = [lit "https://bible-api.com/search/" ++ query ++ lit "?limit="
     ++ dec (or_int limit 10)].
Proof. unfold search_verses. rewrite run_bind_get. reflexivity. Qed.

(** A tool whose one request fails fails the same way. *)
Lemma run_request_raises {A} url (k : response -> outcome A) w e :
  network w url = Raises e ->
  result ((response <~ requests_get url ;; lift (k response)) w) = Raises e.
Proof. intros H. rewrite run_bind_get. unfold result. simpl. now rewrite H. Qed.

(** X1. A 200 reply with an [error] field makes the verse lookup and the
    chapter tool return ["Error: "] and the rendered error, whatever else
    the document holds. *)
Theorem error_field_reported w resp d e :
  status_code resp = 200%Z ->
  body resp = Some (JDict d) ->
  lookup (lit "error") d = Some e ->
  (forall reference translation,
     answered w (get_verse reference translation w) resp ->
     result (get_verse reference translation w)
     = Returns (lit "Error: " ++ py_str e))
  /\ (forall book_chapter translation,
        answered w (get_chapter book_chapter translation w) resp ->
        result (get_chapter book_chapter translation w)
        = Returns (lit "Error: " ++ py_str e)).
Proof.
  intros Hst Hbody Herr. split.
  - intros reference translation Hans.
    eapply get_verse_error_reply; eassumption.
  - intros book_chapter translation Hans.
    unfold get_chapter in *. run_request Hans. with_status_200 Hst Hbody.
    rewrite (lookup_some_in _ _ Herr). step. rewrite Herr. reflexivity.
Qed.

(** X2. Every run of a tool issues exactly one request, whatever the
    upstream answers: nothing is retried and nothing is skipped. *)
Theorem one_request_per_call w :
  (forall reference translation,
     length (requested (get_verse reference translation w)) = 1)
  /\ (forall query limit,
        length (requested (search_verses query limit w)) = 1)
  /\ (forall book_chapter translation,
        length (requested (get_chapter book_chapter translation w)) = 1)
  /\ (forall translation,
        length (requested (get_random_verse translation w)) = 1).
Proof.
  split; [|split; [|split]].
  - intros. now rewrite get_verse_requested.
  - intros. now rewrite search_verses_requested.
  - intros. now rewrite get_chapter_requested.
  - intros translation.
    destruct (get_random_verse_requested translation w) as (v & _ & ->).
    reflexivity.
Qed.

(** X3. A fault of the HTTP client is not caught: the tool raises what
    the request raised. *)
Theorem network_fault_propagates w e :
  (forall url, network w url = Raises e) ->
  (forall reference translation,
     result (get_verse reference translation w) = Raises e)
  /\ (forall query limit,
        result (search_verses query limit w) = Raises e)
  /\ (forall book_chapter translation,
        result (get_chapter book_chapter translation w) = Raises e)
  /\ (forall translation,
        result (get_random_verse translation w) = Raises e).
Proof.
  intros Hnet. split; [|split; [|split]].
  - intros. unfold get_verse. apply run_request_raises, Hnet.
  - intros. unfold search_verses. apply run_request_raises, Hnet.
  - intros. unfold get_chapter. apply run_request_raises, Hnet.
  - intros translation.
    destruct (choice_inspiring w) as (v & Hv & _).
    unfold get_random_verse. rewrite (run_bind_choice _ _ _ Hv).
    apply run_request_raises, Hnet.
Qed.

(** X4. A 200 reply whose body is not JSON makes each tool raise the
    decoding error of [response.json()]. *)
Theorem body_not_json_raises w resp :
  status_code resp = 200%Z ->
  body resp = None ->
  (forall reference translation,
     answered w (get_verse reference translation w) resp ->
     result (get_verse reference translation w) = Raises JSONDecodeError)
  /\ (forall query limit,
        answered w (search_verses query limit w) resp ->
        result (search_verses query limit w) = Raises JSONDecodeError)
  /\ (forall book_chapter translation,
        answered w (get_chapter book_chapter translation w) resp ->
        result (get_chapter book_chapter translation w)
        = Raises JSONDecodeError)
  /\ (forall translation,
        answered w (get_random_verse translation w) resp ->
        result (get_random_verse translation w) = Raises JSONDecodeError).
Proof.
  intros Hst Hbody. split; [|split; [|split]].
  - intros reference translation Hans.
    unfold get_verse in *. run_request Hans. with_status_200 Hst Hbody.
    reflexivity.
  - intros query limit Hans.
    unfold search_verses in *. run_request Hans. with_status_200 Hst Hbody.
    reflexivity.
  - intros book_chapter translation Hans.
    unfold get_chapter in *. run_request Hans. with_status_200 Hst Hbody.
    reflexivity.
  - intros translation Hans.
    destruct (choice_inspiring w) as (v & Hv & _).
    unfold get_random_verse in *.
    rewrite (run_bind_choice _ _ _ Hv) in Hans |- *.
    run_request Hans. with_status_200 Hst Hbody. reflexivity.
Qed.

(** X5. On a 200 reply without [error] field the random-verse tool does
    what the verse lookup does on that reply and puts ["Random Verse - "]
    in front: the same text, or the same exception. *)
Theorem random_verse_prefixes_verse_lookup
    reference translation translation' w resp data :
  answered w (get_verse reference translation w) resp ->
  answered w (get_random_verse translation' w) resp ->
  status_code resp = 200%Z ->
  body resp = Some data ->
  py_in (lit "error") data <> Returns true ->
  result (get_random_verse translation' w)
  = (out <- result (get_verse reference translation w) ;;
     Returns (lit "Random Verse - " ++ out)).
Proof.
  intros Hverse Hrandom Hst Hbody Herr.
  destruct (choice_inspiring w) as (v & Hv & _).
  unfold get_random_verse in *.
  rewrite (run_bind_choice _ _ _ Hv) in Hrandom |- *.
  run_request Hrandom. unfold get_verse in *. run_request Hverse.
  with_status_200 Hst Hbody.
  destruct data as [| b | z | s | l | d];
    cbn [py_in] in Herr; step; try reflexivity.
  - destruct (is_substring (lit "error") s); [congruence | reflexivity].
  - destruct (existsb _ l); [congruence | reflexivity].
  - destruct (existsb _ d); [congruence|]. step.
    destruct (lookup (lit "reference") d) as [r|]; [|reflexivity].
    destruct (lookup (lit "translation_name") d) as [tn|]; [|reflexivity].
    destruct (lookup (lit "text") d) as [t|]; [|reflexivity].
    step. destruct t; reflexivity.
Qed.

(** X6. The search request carries the limit in decimal; a falsy limit
    ([None] or [0]) is sent as [10], any other integer as it is. *)
Theorem search_request_carries_limit query w :
  requested (search_verses query None w)
  = [lit "https://bible-api.com/search/" ++ query ++ lit "?limit=10"]
  /\ requested (search_verses query (Some 0%Z) w)
     = [lit "https://bible-api.com/search/" ++ query ++ lit "?limit=10"]
  /\ (forall z, z <> 0%Z ->
        requested (search_verses query (Some z) w)
        = [lit "https://bible-api.com/search/" ++ query ++ lit "?limit="
           ++ dec z]).
Proof.
  split; [|split].
  - apply search_verses_requested.
  - apply search_verses_requested.
  - intros z Hz. rewrite search_verses_requested. unfold or_int.
    destruct (Z.eqb_spec z 0); [contradiction | reflexivity].
Qed.

(** *** Malformed replies *)

(** X7. A 200 reply whose document is not an object makes the verse
    lookup, the chapter tool and the random-verse tool raise
    [TypeError]. *)
Theorem non_object_document_raises w resp data :
  status_code resp = 200%Z ->
  body resp = Some data ->
  (forall d, data <> JDict d) ->
  (forall reference translation,
     answered w (get_verse reference translation w) resp ->
     result (get_verse reference translation w) = Raises TypeError)
  /\ (forall book_chapter translation,
        answered w (get_chapter book_chapter translation w) resp ->
        result (get_chapter book_chapter translation w) = Raises TypeError)
  /\ (forall translation,
        answered w (get_random_verse translation w) resp ->
        result (get_random_verse translation w) = Raises TypeError).
Proof.
  intros Hst Hbody Hdata. split; [|split].
  - intros reference translation Hans.
    unfold get_verse in *. run_request Hans. with_status_200 Hst Hbody.
    destruct data as [| b | z | s | l | d]; step; try reflexivity.
    + destruct (is_substring _ s); reflexivity.
    + destruct (existsb _ l); reflexivity.
    + contradiction (Hdata d eq_refl).
  - intros book_chapter translation Hans.
    unfold get_chapter in *. run_request Hans. with_status_200 Hst Hbody.
    destruct data as [| b | z | s | l | d]; step; try reflexivity.
    + destruct (is_substring _ s); reflexivity.
    + destruct (existsb _ l); reflexivity.
    + contradiction (Hdata d eq_refl).
  - intros translation Hans.
    destruct (choice_inspiring w) as (v & Hv & _).
    unfold get_random_verse in *.
    rewrite (run_bind_choice _ _ _ Hv) in Hans |- *.
    run_request Hans. with_status_200 Hst Hbody.
    destruct data as [| b | z | s | l | d]; try reflexivity.
    contradiction (Hdata d eq_refl).
Qed.

(** X8. A 200 reply object with neither [error] nor [reference] makes the
    three tools that read [reference] raise [KeyError]. *)
Theorem missing_reference_raises w resp d :
  status_code resp = 200%Z ->
  body resp = Some (JDict d) ->
  lookup (lit "error") d = None ->
  lookup (lit "reference") d = None ->
  (forall reference translation,
     answered w (get_verse reference translation w) resp ->
     result (get_verse reference translation w) = Raises KeyError)
  /\ (forall book_chapter translation,
        answered w (get_chapter book_chapter translation w) resp ->
        result (get_chapter book_chapter translation w) = Raises KeyError)
  /\ (forall translation,
        answered w (get_random_verse translation w) resp ->
        result (get_random_verse translation w) = Raises KeyError).
Proof.
  intros Hst Hbody Herr Href. split; [|split].
  - intros reference translation Hans.
    unfold get_verse in *. run_request Hans. with_status_200 Hst Hbody.
    rewrite (lookup_none_not_in _ _ Herr). step. rewrite Href. reflexivity.
  - intros book_chapter translation Hans.
    unfold get_chapter in *. run_request Hans. with_status_200 Hst Hbody.
    rewrite (lookup_none_not_in _ _ Herr). step. rewrite Href. reflexivity.
  - intros translation Hans.
    destruct (choice_inspiring w) as (v & Hv & _).
    unfold get_random_verse in *.
    rewrite (run_bind_choice _ _ _ Hv) in Hans |- *.
    run_request Hans. with_status_200 Hst Hbody.
    rewrite Href. reflexivity.
Qed.

(** X9. The verse lookup calls [strip] on [text]: when the field is there
    but is not a string (a number, [null], a list, ...) the lookup raises
    [AttributeError]. *)
Theorem verse_text_not_string_raises
    reference translation w resp d r tn t :
  answered w (get_verse reference translation w) resp ->
  status_code resp = 200%Z ->
  body resp = Some (JDict d) ->
  lookup (lit "error") d = None ->
  lookup (lit "reference") d = Some r ->
  lookup (lit "translation_name") d = Some tn ->
  lookup (lit "text") d = Some t ->
  (forall s, t <> JStr s) ->
  result (get_verse reference translation w) = Raises AttributeError.
Proof.
  intros Hans Hst Hbody Herr Hr Htn Ht Hnot.
  unfold get_verse in *. run_request Hans. with_status_200 Hst Hbody.
  rewrite (lookup_none_not_in _ _ Herr). step. rewrite Hr, Htn, Ht. step.
  destruct t; try reflexivity. contradiction (Hnot s eq_refl).
Qed.

(** *** Search with any limit *)

(** What the search returns once the visited matches are well formed. *)
Lemma search_slice_result query limit w resp vs shown :
  answered w (search_verses query limit w) resp ->
  status_code resp = 200%Z ->
  body resp = Some (JList vs) ->
  vs <> [] ->
  Forall2 match_entry (slice_to vs (or_int limit 10)) shown ->
  result (search_verses query limit w)
  = Returns (lit "Found " ++ dec (Z.of_nat (length shown))
             ++ lit " verse(s) for '" ++ query ++ lit "':" ++ nl ++ nl
             ++ join (nl ++ nl) (map render_match shown)).
Proof.
  intros Hans Hst Hbody Hne Hshown.
  unfold search_verses in *. run_request Hans. with_status_200 Hst Hbody.
  destruct vs as [|v vs]; [contradiction|].
  cbn [truthy length Nat.eqb negb]. step.
  rewrite (search_loop _ Hshown). step.
  cbn [app]. rewrite length_map. reflexivity.
Qed.

(** X10. The entries of a search are those of [data[:limit]]: with a
    negative limit all matches but the last [-limit], and the header
    counts them. *)
Theorem search_verses_slice query limit w resp vs shown :
  answered w (search_verses query limit w) resp ->
  status_code resp = 200%Z ->
  body resp = Some (JList vs) ->
  vs <> [] ->
  Forall2 match_entry (slice_to vs (or_int limit 10)) shown ->
  result (search_verses query limit w)
  = Returns (lit "Found " ++ dec (Z.of_nat (length shown))
             ++ lit " verse(s) for '" ++ query ++ lit "':" ++ nl ++ nl
             ++ join (nl ++ nl) (map render_match shown))
  /\ ((or_int limit 10 < 0)%Z ->
      length shown = length vs - Z.to_nat (- or_int limit 10)).
Proof.
  intros Hans Hst Hbody Hne Hshown. split.
  - eapply search_slice_result; eassumption.
  - intros Hneg. rewrite <- (Forall2_length Hshown). unfold slice_to.
    destruct (Z.ltb_spec (or_int limit 10) 0) as [_|Hge]; [|lia].
    rewrite length_firstn. lia.
Qed.

(** X11. A negative limit that reaches past all matches leaves no entry:
    the tool reports zero verses found, and not the no-match text. *)
Theorem search_negative_limit_past_all query z w resp vs :
  answered w (search_verses query (Some z) w) resp ->
  status_code resp = 200%Z ->
  body resp = Some (JList vs) ->
  vs <> [] ->
  (z <= - Z.of_nat (length vs))%Z ->
  result (search_verses query (Some z) w)
  = Returns (lit "Found 0 verse(s) for '" ++ query ++ lit "':" ++ nl ++ nl).
Proof.
  intros Hans Hst Hbody Hne Hz.
  assert (length vs <> 0) by (destruct vs; [contradiction | discriminate]).
  assert (or_int (Some z) 10 = z) as Hlimit.
  { unfold or_int. destruct (Z.eqb_spec z 0); [lia | reflexivity]. }
  assert (slice_to vs z = []) as Hslice.
  { unfold slice_to. destruct (Z.ltb_spec z 0); [|lia].
    replace (length vs - Z.to_nat (- z)) with 0 by lia. reflexivity. }
  assert (Forall2 match_entry (slice_to vs (or_int (Some z) 10)) []) as Hnone.
  { rewrite Hlimit, Hslice. constructor. }
  rewrite (search_slice_result query (Some z) Hans Hst Hbody Hne Hnone).
  reflexivity.
Qed.

(** X12. The first visited match without [reference] aborts the search
    with [KeyError]: the entries formatted before it are not returned. *)
Theorem search_malformed_entry_aborts
    query limit w resp vs good shown e rest :
  answered w (search_verses query limit w) resp ->
  status_code resp = 200%Z ->
  body resp = Some (JList vs) ->
  vs <> [] ->
  slice_to vs (or_int limit 10) = good ++ JDict e :: rest ->
  Forall2 match_entry good shown ->
  lookup (lit "reference") e = None ->
  result (search_verses query limit w) = Raises KeyError.
Proof.
  intros Hans Hst Hbody Hne Hslice Hgood He.
  unfold search_verses in *. run_request Hans. with_status_200 Hst Hbody.
  destruct vs as [|v vs]; [contradiction|].
  cbn [truthy length Nat.eqb negb]. step. rewrite Hslice.
  clear Hslice Hans Hne. generalize (@nil pystr) as results.
  induction Hgood as [|x rt good shown (ex & -> & Hr & Ht) _ IH];
    intros results; cbn [app py_for].
  - unfold py_getitem. rewrite He. reflexivity.
  - unfold py_getitem at 1 2. rewrite Hr, Ht. step. apply IH.
Qed.

(** X13. Matches past the limit are never read: two result lists with the
    same [data[:limit]] give the same outcome, however the rest looks. *)
Theorem search_ignores_matches_past_limit
    query limit w w' resp resp' vs vs' :
  answered w (search_verses query limit w) resp ->
  answered w' (search_verses query limit w') resp' ->
  status_code resp = 200%Z ->
  status_code resp' = 200%Z ->
  body resp = Some (JList vs) ->
  body resp' = Some (JList vs') ->
  vs <> [] -> vs' <> [] ->
  slice_to vs (or_int limit 10) = slice_to vs' (or_int limit 10) ->
  result (search_verses query limit w)
  = result (search_verses query limit w').
Proof.
  intros Hans Hans' Hst Hst' Hbody Hbody' Hne Hne' Hslice.
  unfold search_verses in *. run_request Hans. run_request Hans'.
  rewrite Hst, Hst', Z.eqb_refl. unfold response_json.
  rewrite Hbody, Hbody'. step.
  destruct vs as [|v vs]; [contradiction|].
  destruct vs' as [|v' vs']; [contradiction|].
  cbn [truthy length Nat.eqb negb]. step.
  rewrite Hslice. reflexivity.
Qed.

(** *** The text of a chapter *)

Lemma drop_while_idem p s : drop_while p (drop_while p s) = drop_while p s.
Proof.
  induction s as [|c s IH]; simpl; [reflexivity|].
  destruct (p c) eqn:E; [exact IH|]. simpl. now rewrite E.
Qed.

Lemma drop_while_app_last p s c :
  p c = false -> drop_while p (s ++ [c]) = drop_while p s ++ [c].
Proof.
  intros Hc. induction s as [|x s IH]; simpl.
  - now rewrite Hc.
  - destruct (p x); [exact IH | reflexivity].
Qed.

Lemma drop_while_length p s : length (drop_while p s) <= length s.
Proof.
  induction s as [|c s IH]; simpl; [lia|]. destruct (p c); simpl; lia.
Qed.

Lemma has_nonspace_drop_while s :
  has_nonspace (drop_while is_space s) = has_nonspace s.
Proof.
  induction s as [|c s IH]; cbn [drop_while]; [reflexivity|].
  destruct (is_space c) eqn:E; [|reflexivity].
  rewrite IH. unfold has_nonspace. cbn [existsb]. now rewrite E.
Qed.

Lemma rstrip_idem s : rstrip (rstrip s) = rstrip s.
Proof. unfold rstrip. now rewrite rev_involutive, drop_while_idem. Qed.

Lemma rstrip_cons_nonspace c s :
  is_space c = false -> rstrip (c :: s) = c :: rstrip s.
Proof.
  intros Hc. unfold rstrip. simpl.
  rewrite drop_while_app_last by exact Hc.
  now rewrite rev_app_distr.
Qed.

Lemma lstrip_rstrip s : lstrip s = s -> lstrip (rstrip s) = rstrip s.
Proof.
  destruct s as [|c s]; intros H; [reflexivity|].
  destruct (is_space c) eqn:Hc.
  - exfalso. unfold lstrip in H. simpl in H. rewrite Hc in H.
    pose proof (drop_while_length is_space s) as Hlen.
    rewrite H in Hlen. simpl in Hlen. lia.
  - rewrite rstrip_cons_nonspace by exact Hc.
    unfold lstrip. simpl. now rewrite Hc.
Qed.

(** What [strip] returns has no whitespace at either end, and is not empty
    when the string has a character to keep. *)
Lemma strip_trimmed s :
  lstrip (strip s) = strip s /\ rstrip (strip s) = strip s
  /\ (has_nonspace s = true -> strip s <> []).
Proof.
  unfold strip. split; [|split].
  - apply lstrip_rstrip. apply drop_while_idem.
  - apply rstrip_idem.
  - intros Hs Hnil.
    assert (has_nonspace (rstrip (lstrip s)) = true) as H.
    { unfold rstrip. apply has_nonspace_rev.
      rewrite has_nonspace_drop_while. apply has_nonspace_rev.
      unfold lstrip. now rewrite has_nonspace_drop_while. }
    rewrite Hnil in H. discriminate H.
Qed.

(** The loop of the chapter tool only appends to the text it starts
    from. *)
Lemma chapter_loop_extends items chapter_text final :
  py_for items (fun verse chapter_text =>
    n <- py_getitem verse (lit "verse") ;;
    t <- py_getitem verse (lit "text") ;;
    Returns (chapter_text ++ py_str n ++ lit ". " ++ py_str t ++ nl))
    chapter_text
  = Returns final ->
  exists suffix, final = chapter_text ++ suffix.
Proof.
  revert chapter_text.
  induction items as [|x items IH]; intros chapter_text; cbn [py_for].
  - intros [= <-]. exists []. now rewrite app_nil_r.
  - destruct (py_getitem x (lit "verse")) as [n|]; [|discriminate].
    destruct (py_getitem x (lit "text")) as [t|]; [|discriminate].
    cbn [obind]. intros H. destruct (IH _ H) as (suffix & ->).
    eexists. rewrite <- app_assoc. reflexivity.
Qed.

(** X14. Whenever the chapter tool returns on a 200 reply without [error]
    field, the text it returns is not empty and has no whitespace at its
    start or at its end. *)
Theorem get_chapter_output_trimmed
    book_chapter translation w resp data out :
  answered w (get_chapter book_chapter translation w) resp ->
  status_code resp = 200%Z ->
  body resp = Some data ->
  py_in (lit "error") data = Returns false ->
  result (get_chapter book_chapter translation w) = Returns out ->
  out <> [] /\ lstrip out = out /\ rstrip out = out.
Proof.
  intros Hans Hst Hbody Herr Hres.
  unfold get_chapter in *. rewrite run_bind_get in Hans, Hres.
  rewrite (answered_single Hans) in Hres. unfold result in Hres.
  cbn [snd obind] in Hres. rewrite Hst, Z.eqb_refl in Hres.
  unfold response_json in Hres. rewrite Hbody in Hres.
  cbn [obind] in Hres. rewrite Herr in Hres. cbn [obind] in Hres.
  destruct (py_getitem data (lit "reference")) as [r|]; [|discriminate].
  destruct (py_getitem data (lit "translation_name")) as [tn|];
    [|discriminate].
  destruct (py_getitem data (lit "verses")) as [vs|]; [|discriminate].
  cbn [obind] in Hres.
  destruct (py_iter vs) as [items|]; [|discriminate].
  cbn [obind] in Hres.
  destruct (py_for items _ _) as [final|] eqn:Hloop; [|discriminate].
  cbn [obind] in Hres. injection Hres as <-.
  destruct (chapter_loop_extends _ _ Hloop) as (suffix & ->).
  destruct (strip_trimmed
              ((py_str r ++ lit " (" ++ py_str tn ++ lit "):" ++ nl ++ nl)
               ++ suffix)) as (Hl & Hr & Hne).
  split; [|split; assumption].
  apply Hne. rewrite <- !app_assoc. apply has_nonspace_mid. reflexivity.
Qed.

End Further.

(** ** Concrete runs of the further properties *)

(** X1 at the upstream error document. *)
Lemma error_field_reported_witness :
  result (get_verse (interpreter := repr_plain) (lit "John 99:1") None
            (always error_reply 0))
  = Returns (lit "Error: not found")
  /\ result (get_chapter (interpreter := repr_plain) (lit "John 99") None
               (always error_reply 0))
     = Returns (lit "Error: not found").
Proof.
  destruct (@error_field_reported repr_plain (always error_reply 0)
              error_reply error_document (JStr (lit "not found"))
              eq_refl eq_refl eq_refl) as [Hverse Hchapter].
  split.
  - apply Hverse. intros url _. reflexivity.
  - apply Hchapter. intros url _. reflexivity.
Defined.

(** X3 in a world without network. *)
Lemma network_fault_propagates_witness :
  result (get_verse (interpreter := repr_plain) (lit "John 3:16") None
            (mkWorld (fun _ => Raises RequestException) 0))
  = Raises RequestException
  /\ result (get_random_verse (interpreter := repr_plain) None
               (mkWorld (fun _ => Raises RequestException) 0))
     = Raises RequestException.
Proof.
  destruct (@network_fault_propagates repr_plain
              (mkWorld (fun _ => Raises RequestException) 0)
              RequestException (fun _ => eq_refl)) as (Hv & _ & _ & Hr).
  split; [apply Hv | apply Hr].
Defined.

(** X4 at a 200 reply with a body that is not JSON. *)
Lemma body_not_json_raises_witness :
  result (search_verses (interpreter := repr_plain) (lit "love") None
            (always (mkResponse 200 None) 0))
  = Raises JSONDecodeError
  /\ result (get_chapter (interpreter := repr_plain) (lit "Psalm 117") None
               (always (mkResponse 200 None) 0))
     = Raises JSONDecodeError.
Proof.
  destruct (@body_not_json_raises repr_plain
              (always (mkResponse 200 None) 0) (mkResponse 200 None)
              eq_refl eq_refl) as (_ & Hs & Hc & _).
  split.
  - apply Hs. intros url _. reflexivity.
  - apply Hc. intros url _. reflexivity.
Defined.

(** X5 at the reply for John 3:16. *)
Lemma random_verse_prefixes_verse_lookup_witness :
  result (get_random_verse (interpreter := repr_plain) None
            (always john_reply 7))
  = Returns (lit "Random Verse - John 3:16 (King James Version):" ++ nl
             ++ lit "For God so loved the world.").
Proof.
  etransitivity.
  - apply (@random_verse_prefixes_verse_lookup repr_plain
             (lit "John 3:16") None None (always john_reply 7) john_reply
             (JDict john_document)); try reflexivity.
    + intros url _. reflexivity.
    + intros url _. reflexivity.
    + intros H. vm_compute in H. discriminate H.
  - reflexivity.
Defined.

(** X6 at a negative limit. *)
Lemma search_request_carries_limit_witness :
  requested (search_verses (interpreter := repr_plain) (lit "love")
               (Some (-1)%Z) (always love_reply 0))
  = [lit "https://bible-api.com/search/love?limit=-1"].
Proof.
  destruct (@search_request_carries_limit repr_plain (lit "love")
              (always love_reply 0)) as (_ & _ & H).
  apply (H (-1)%Z). discriminate.
Defined.

(** X7 at a reply that is a list. *)
Lemma non_object_document_raises_witness :
  result (get_verse (interpreter := repr_plain) (lit "John 3:16") None
            (always love_reply 0))
  = Raises TypeError.
Proof.
  assert (forall d, JList love_matches <> JDict d) as Hnot
    by (intros d; discriminate).
  destruct (@non_object_document_raises repr_plain (always love_reply 0)
              love_reply (JList love_matches) eq_refl eq_refl Hnot)
    as (Hv & _ & _).
  apply Hv. intros url _. reflexivity.
Defined.

(** X8 at the empty object. *)
Lemma missing_reference_raises_witness :
  result (get_chapter (interpreter := repr_plain) (lit "Psalm 117") None
            (always (mkResponse 200 (Some (JDict []))) 0))
  = Raises KeyError.
Proof.
  destruct (@missing_reference_raises repr_plain
              (always (mkResponse 200 (Some (JDict []))) 0)
              (mkResponse 200 (Some (JDict []))) []
              eq_refl eq_refl eq_refl eq_refl) as (_ & Hc & _).
  apply Hc. intros url _. reflexivity.
Defined.

(** X9 at a reply whose text is [null]. *)
Lemma verse_text_not_string_raises_witness :
  result (get_verse (interpreter := repr_plain) (lit "John 3:16") None
            (always (mkResponse 200
                       (Some (JDict [ (lit "reference", JStr (lit "John 3:16"));
                                      (lit "translation_name", JStr (lit "KJV"));
                                      (lit "text", JNull) ]))) 0))
  = Raises AttributeError.
Proof.
  apply (@verse_text_not_string_raises repr_plain (lit "John 3:16") None _
           (mkResponse 200
              (Some (JDict [ (lit "reference", JStr (lit "John 3:16"));
                             (lit "translation_name", JStr (lit "KJV"));
                             (lit "text", JNull) ])))
           [ (lit "reference", JStr (lit "John 3:16"));
             (lit "translation_name", JStr (lit "KJV"));
             (lit "text", JNull) ]
           (JStr (lit "John 3:16")) (JStr (lit "KJV")) JNull);
    try reflexivity.
  - intros url _. reflexivity.
  - intros s. discriminate.
Defined.

(** X10 at limit -1 against five matches. *)
Lemma search_verses_slice_witness :
  result (search_verses (interpreter := repr_plain) (lit "love")
            (Some (-1)%Z) (always love_reply 0))
  = Returns (lit "Found 4 verse(s) for 'love':" ++ nl ++ nl
             ++ join (nl ++ nl)
                  [ lit "John 3:16: For God so loved the world.";
                    lit "1 John 4:8: God is love.";
                    lit "1 John 4:19: We love him, because he first loved us.";
                    lit "Romans 13:10: Love worketh no ill to his neighbour." ]).
Proof.
  refine (proj1 (@search_verses_slice repr_plain (lit "love") (Some (-1)%Z)
                   (always love_reply 0) love_reply love_matches
                   [ (JStr (lit "John 3:16"),
                      lit "For God so loved the world." ++ nl);
                     (JStr (lit "1 John 4:8"), lit "God is love." ++ nl);
                     (JStr (lit "1 John 4:19"),
                      lit "We love him, because he first loved us." ++ nl);
                     (JStr (lit "Romans 13:10"),
                      lit "Love worketh no ill to his neighbour." ++ nl) ]
                   _ _ _ _ _)); try reflexivity.
  - intros url _. reflexivity.
  - discriminate.
  - repeat constructor; eexists; repeat split; reflexivity.
Defined.

(** X11 at limit -5 against five matches. *)
Lemma search_negative_limit_past_all_witness :
  result (search_verses (interpreter := repr_plain) (lit "love")
            (Some (-5)%Z) (always love_reply 0))
  = Returns (lit "Found 0 verse(s) for 'love':" ++ nl ++ nl).
Proof.
  apply (@search_negative_limit_past_all repr_plain (lit "love") (-5)%Z
           (always love_reply 0) love_reply love_matches);
    try reflexivity.
  - intros url _. reflexivity.
  - discriminate.
Defined.

(** X12 at a second match that has no reference. *)
Lemma search_malformed_entry_aborts_witness :
  result (search_verses (interpreter := repr_plain) (lit "love") None
            (always (mkResponse 200
                       (Some (JList [ found "1 John 4:8" "God is love.";
                                      JDict [ (lit "text", JStr (lit "x")) ] ])))
                    0))
  = Raises KeyError.
Proof.
  apply (@search_malformed_entry_aborts repr_plain (lit "love") None _
           (mkResponse 200
              (Some (JList [ found "1 John 4:8" "God is love.";
                             JDict [ (lit "text", JStr (lit "x")) ] ])))
           [ found "1 John 4:8" "God is love.";
             JDict [ (lit "text", JStr (lit "x")) ] ]
           [found "1 John 4:8" "God is love."]
            [(JStr (lit "1 John 4:8"), lit "God is love." ++ nl)]
           [(lit "text", JStr (lit "x"))] []); try reflexivity.
  - intros url _. reflexivity.
  - discriminate.
  - repeat constructor; eexists; repeat split; reflexivity.
Defined.

(** X13 at limit 1: what follows the first match does not matter. *)
Lemma search_ignores_matches_past_limit_witness :
  result (search_verses (interpreter := repr_plain) (lit "love") (Some 1%Z)
            (always love_reply 0))
  = result (search_verses (interpreter := repr_plain) (lit "love")
              (Some 1%Z)
              (always (mkResponse 200
                         (Some (JList [ found "John 3:16"
                                          "For God so loved the world.";
                                        JNull ]))) 0)).
Proof.
  apply (@search_ignores_matches_past_limit repr_plain (lit "love")
           (Some 1%Z) _ _ love_reply
           (mkResponse 200
              (Some (JList [ found "John 3:16" "For God so loved the world.";
                             JNull ])))
           love_matches
           [ found "John 3:16" "For God so loved the world."; JNull ]);
    try reflexivity.
  - intros url _. reflexivity.
  - intros url _. reflexivity.
  - discriminate.
  - discriminate.
Defined.

(** X14 at the chapter of two verses. *)
Lemma get_chapter_output_trimmed_witness :
  exists out,
    result (get_chapter (interpreter := repr_plain) (lit "Psalm 117") None
              (always psalm_reply 0))
    = Returns out
    /\ out <> [] /\ lstrip out = out /\ rstrip out = out.
Proof.
  eexists. split; [reflexivity|].
  eapply (@get_chapter_output_trimmed repr_plain (lit "Psalm 117") None
            (always psalm_reply 0) psalm_reply (JDict psalm_document));
    try reflexivity.
  intros url _. reflexivity.
Defined.
